(** * eShopping-api: promotions and order totals

    A shallow embedding of the pricing logic of the eShopping REST backend:

    - [src/App/Models/promotion.js]: the promotion schema, its validators,
      its pre-save hook and the methods [isValid], [apply] and
      [incrementUsage];
    - [src/App/Models/order.js]: the order schema, its defaults and the
      pre-save hook that computes [totalPrice];
    - the order controller ([createSchema], [create]) and the product
      schema, as far as the hook and the creation path read them;
    - the promotion controller ([createSchema], [create], [handleError]);
    - [src/App/Utils/errorResponse.js] and the error middleware
      ([ErrorHandler.handleError]), which answer the errors of the
      controllers;
    - the [Logger] class, as far as the promotion controller calls it.

    Conventions of the embedding.

    - A JavaScript [Number] is an exact rational ([Q]): no rounding, no
      [NaN], no infinities.  Results are compared with [==] ([Qeq]).
    - A [Date] is its time value, an integer number of milliseconds.
    - [undefined] is [None]; a field the schema gives a default is total.
    - A Mongoose document is a record; a method that mutates [this] takes the
      document and returns its outcome together with the document after the
      call.
    - A collection is a finite map from ObjectIds to documents
      ([findById] is a lookup) or, where only its contents matter, a list. *)

From Stdlib Require Import ZArith QArith Qminmax Lqa Bool List.
From Stdlib Require Import DecimalString.
From stdpp Require Import gmap strings.
Import ListNotations.

Local Open Scope Q_scope.

(** ** JavaScript values *)

Definition Number : Type := Q.
Definition Date : Type := Z.
Definition ObjectId : Type := string.

Bind Scope Q_scope with Number.
Bind Scope Z_scope with Date.

(** [Number.MAX_SAFE_INTEGER], that is 2^53 - 1;
    [Number.MIN_SAFE_INTEGER] is its opposite. *)
Definition MAX_SAFE_INTEGER : Number := 9007199254740991.

(** The ObjectId Mongoose casts a string of 24 hexadecimal digits to: the
    digits [A] to [F] count as [a] to [f]. *)
Definition lower_hex_digit (c : Ascii.ascii) : Ascii.ascii :=
  let n := Ascii.N_of_ascii c in
  if ((65 <=? n) && (n <=? 70))%N then Ascii.ascii_of_N (n + 32) else c.

Fixpoint cast_ObjectId (s : string) : ObjectId :=
  match s with
  | EmptyString => EmptyString
  | String c rest => String (lower_hex_digit c) (cast_ObjectId rest)
  end.

(** Truthiness of a number: every number but [0] (and [NaN], which the
    embedding leaves out) is truthy. *)
Definition truthy (x : Number) : bool := negb (Qeq_bool x 0).

(** [x < y] and [x >= y] on numbers, as booleans. *)
Definition Qlt_bool (x y : Number) : bool := negb (Qle_bool y x).
Definition Qge_bool (x y : Number) : bool := Qle_bool y x.

(** [Math.max(a, b)]. *)
Definition Math_max (a b : Number) : Number := Qmax a b.

(** ** Errors

    The code throws plain [Error] objects; they are classified here by what
    raises them.  [EmptyOrder], [InvalidQuantity] and [InvalidAdjustment] are
    kinds the specification names; nothing in the models raises them. *)
Inductive ErrorKind : Type :=
| UsageExceeded
    (* 'La promotion a atteint son nombre maximum d'utilisations' *)
| ProductNotFound (product : ObjectId)
    (* 'Produit non trouve pour l'article : <product>' *)
| ValidationError
    (* a schema validator rejected the document on save *)
| EmptyOrder
| InvalidQuantity
| InvalidAdjustment.

Inductive Result (A : Type) : Type :=
| Ok (a : A)
| Err (e : ErrorKind).
Arguments Ok {A} a.
Arguments Err {A} e.

(** ** Promotions ([src/App/Models/promotion.js]) *)

Module Promotion.

Inductive PromotionType : Type := percentage | fixed.

(** The paths of [promotionSchema] the logic reads ([description] and
    [conditions] carry no logic and are left out). *)
Record t : Type := mk {
  name : string;
  type : PromotionType;
  value : Number;
  productId : ObjectId;
  startDate : Date;
  endDate : Date;
  active : bool;
  minPurchase : Number;
  maxUsage : option Number;
  currentUsage : Number
}.

Definition set_active (b : bool) (p : t) : t :=
  mk (name p) (type p) (value p) (productId p) (startDate p) (endDate p)
     b (minPurchase p) (maxUsage p) (currentUsage p).

Definition set_currentUsage (n : Number) (p : t) : t :=
  mk (name p) (type p) (value p) (productId p) (startDate p) (endDate p)
     (active p) (minPurchase p) (maxUsage p) n.

(** *** Schema validators *)

(** [value], first validator:
    [this.type !== 'percentage' || (val > 0 && val <= 100)]. *)
Definition validate_value_percentage (p : t) : bool :=
  match type p with
  | percentage => Qlt_bool 0 (value p) && Qle_bool (value p) 100
  | fixed => true
  end.

(** [value], second validator: [this.type === 'percentage' || val > 0]. *)
Definition validate_value_fixed (p : t) : bool :=
  match type p with
  | percentage => true
  | fixed => Qlt_bool 0 (value p)
  end.

(** [startDate]: [val >= new Date()]. *)
Definition validate_startDate (now : Date) (p : t) : bool :=
  (now <=? startDate p)%Z.

(** [endDate]: [val > this.startDate]. *)
Definition validate_endDate (p : t) : bool :=
  (startDate p <? endDate p)%Z.

(** [minPurchase]: [min: 0]. *)
Definition validate_minPurchase (p : t) : bool :=
  Qle_bool 0 (minPurchase p).

(** [maxUsage]: [min: 1]; the path is optional. *)
Definition validate_maxUsage (p : t) : bool :=
  match maxUsage p with
  | Some m => Qle_bool 1 m
  | None => true
  end.

(** Every validator of the schema, on the whole document. *)
Definition schema_validate (now : Date) (p : t) : bool :=
  validate_value_percentage p && validate_value_fixed p
  && validate_startDate now p && validate_endDate p
  && validate_minPurchase p && validate_maxUsage p.

(** *** The pre-save hook and the methods *)

(** [this.maxUsage && this.currentUsage >= this.maxUsage], the guard of the
    pre-save hook and of [incrementUsage]. *)
Definition usage_reached (p : t) : bool :=
  match maxUsage p with
  | Some m => truthy m && Qge_bool (currentUsage p) m
  | None => false
  end.

(** [promotionSchema.pre('save', ...)]. *)
Definition pre_save (p : t) : t :=
  if usage_reached p then set_active false p else p.

(** [isValid()], with the clock reading [new Date()] as a parameter. *)
Definition isValid (now : Date) (p : t) : bool :=
  active p
  && (startDate p <=? now)%Z
  && (now <=? endDate p)%Z
  && match maxUsage p with
     | Some m => negb (truthy m) || Qlt_bool (currentUsage p) m
     | None => true
     end.

(** [apply(price)]. *)
Definition apply (now : Date) (p : t) (price : Number) : Number :=
  if negb (isValid now p) then price
  else match type p with
       | percentage => price * (1 - value p / 100)
       | fixed => Math_max 0 (price - value p)
       end.

Section Save.

(** Mongoose validates a document before it runs the schema's pre-save
    hooks.  Which paths it checks on a given save is Mongoose's choice,
    so the validation is a parameter ([schema_validate] is the instance
    that runs every validator). *)
Variable validate : Date -> t -> bool.

(** [this.save()]: validation, then the pre-save hook, then the write.
    The second component is the document after the call. *)
Definition save (now : Date) (p : t) : Result unit * t :=
  if validate now p then (Ok tt, pre_save p)
  else (Err ValidationError, p).

(** [incrementUsage()]. *)
Definition incrementUsage (now : Date) (p : t) : Result unit * t :=
  if usage_reached p then (Err UsageExceeded, p)
  else save now (set_currentUsage (currentUsage p + 1) p).

End Save.

End Promotion.

(** ** Products ([productSchema])

    Only [price] is read by the order hook. *)

Module Product.

Record t : Type := mk {
  name : string;
  price : Number
}.

End Product.

(** The collections the models read. *)
Record Database : Type := mkDatabase {
  products : gmap ObjectId Product.t;
  promotions : list Promotion.t
}.

(** [Promise.all] over the promises of an array, each already settled:
    the values in order, or the first rejection in array order. *)
Fixpoint Promise_all {A : Type} (l : list (Result A)) : Result (list A) :=
  match l with
  | [] => Ok []
  | Err e :: _ => Err e
  | Ok a :: rest =>
      match Promise_all rest with
      | Ok values => Ok (a :: values)
      | Err e => Err e
      end
  end.

(** ** Orders ([src/App/Models/order.js]) *)

Module Order.

(** An entry of [items]; [price] is [None] when the entry has none. *)
Record Item : Type := mkItem {
  product : ObjectId;
  variant : option ObjectId;
  quantity : Number;
  price : option Number
}.

Record t : Type := mk {
  user : ObjectId;
  items : list Item;
  shippingAddress : ObjectId;
  paymentMethod : string;
  taxPrice : Number;
  shippingPrice : Number;
  totalPrice : Number;
  isPaid : bool;
  isDelivered : bool;
  status : string
}.

Definition set_totalPrice (x : Number) (o : t) : t :=
  mk (user o) (items o) (shippingAddress o) (paymentMethod o)
     (taxPrice o) (shippingPrice o) x (isPaid o) (isDelivered o) (status o).

(** What [new Order(...)] receives: the paths with a schema default are
    optional. *)
Record Input : Type := mkInput {
  i_user : ObjectId;
  i_items : list Item;
  i_shippingAddress : ObjectId;
  i_paymentMethod : string;
  i_taxPrice : option Number;
  i_shippingPrice : option Number;
  i_totalPrice : option Number
}.

(** [new Order(input)]: the schema defaults fill the absent paths
    ([taxPrice], [shippingPrice] and [totalPrice] default to [0.0],
    [isPaid] and [isDelivered] to [false], [status] to ['pending']). *)
Definition new (i : Input) : t :=
  mk (i_user i) (i_items i) (i_shippingAddress i) (i_paymentMethod i)
     (default 0 (i_taxPrice i)) (default 0 (i_shippingPrice i))
     (default 0 (i_totalPrice i)) false false "pending".

(** [item.price !== undefined ? item.price : product.price]. *)
Definition itemPrice (item : Item) (prod : Product.t) : Number :=
  match price item with
  | Some x => x
  | None => Product.price prod
  end.

(** The callback of [this.items.map]: one line of the order. *)
Definition item_total (db : Database) (item : Item) : Result Number :=
  match products db !! product item with
  | None => Err (ProductNotFound (product item))
  | Some prod => Ok (quantity item * itemPrice item prod)
  end.

(** [itemsPrices.reduce((acc, price) => acc + price, 0)]. *)
Definition sum_prices (itemsPrices : list Number) : Number :=
  fold_left (fun acc price => acc + price) itemsPrices 0.

(** [orderSchema.pre('save', ...)]: the order with its [totalPrice] set,
    or the error handed to [next]. *)
Definition pre_save (db : Database) (o : t) : Result t :=
  match Promise_all (map (item_total db) (items o)) with
  | Ok itemsPrices =>
      Ok (set_totalPrice
            (sum_prices itemsPrices + taxPrice o + shippingPrice o) o)
  | Err e => Err e
  end.

(** The validators of [orderSchema] that can fail on a typed document:
    [quantity] has [min: 1], [price] is required, [paymentMethod] is one of
    three strings. *)
Definition validate_quantity (item : Item) : bool :=
  Qle_bool 1 (quantity item).

Definition validate_price (item : Item) : bool :=
  match price item with
  | Some _ => true
  | None => false
  end.

Definition validate_paymentMethod (o : t) : bool :=
  bool_decide (paymentMethod o ∈ ["card"; "paypal"; "bank_transfer"]).

Definition schema_validate (o : t) : bool :=
  forallb (fun item => validate_quantity item && validate_price item)
          (items o)
  && validate_paymentMethod o.

Section Save.

(** As for promotions, the validation Mongoose runs before the pre-save
    hook is a parameter. *)
Variable validate : t -> bool.

Definition save (db : Database) (o : t) : Result t :=
  if validate o then pre_save db o else Err ValidationError.

(** [orderModel.create(input)]. *)
Definition create (db : Database) (i : Input) : Result t :=
  save db (new i).

End Save.

End Order.

(** ** The order controller ([createSchema] and [create])

    The request body is typed: a key holds a value of the type its schema
    expects, or is absent.  [unknown] lists the keys of the body the schema
    does not declare. *)

Module OrderController.

Inductive JoiCode : Type :=
| any_required | any_only | string_empty | string_hex | string_length
| number_unsafe | number_integer | number_min | array_min | object_unknown.

Inductive PathSeg : Type := Key (k : string) | Index (i : nat).

(** [error.details[0]]: where validation stopped and why. *)
Record JoiError : Type := mkJoiError {
  path : list PathSeg;
  code : JoiCode
}.

Record ItemBody : Type := mkItemBody {
  product : option string;
  variant : option string;
  quantity : option Number;
  price : option Number
}.

Record Body : Type := mkBody {
  user : option string;
  items : option (list ItemBody);
  shippingAddress : option string;
  paymentMethod : option string;
  unknown : list string
}.

Definition is_hex_digit (c : Ascii.ascii) : bool :=
  let n := Ascii.N_of_ascii c in
  ((48 <=? n) && (n <=? 57) || (65 <=? n) && (n <=? 70)
   || (97 <=? n) && (n <=? 102))%N.

Fixpoint all_hex (s : string) : bool :=
  match s with
  | EmptyString => true
  | String c rest => is_hex_digit c && all_hex rest
  end.

(** [Joi.string().hex().length(24)], [required()] or [optional()]. *)
Definition joi_hex24 (required : bool) (v : option string) : option JoiCode :=
  match v with
  | None => if required then Some any_required else None
  | Some s =>
      if String.eqb s "" then Some string_empty
      else if negb (all_hex s) then Some string_hex
      else if negb (String.length s =? 24)%nat then Some string_length
      else None
  end.

Definition is_integer (x : Number) : bool :=
  (Qnum x mod Zpos (Qden x) =? 0)%Z.

(** What every [Joi.number()] checks before its rules: the value must lie
    between [Number.MIN_SAFE_INTEGER] and [Number.MAX_SAFE_INTEGER]. *)
Definition joi_unsafe (x : Number) : bool :=
  Qlt_bool MAX_SAFE_INTEGER x || Qlt_bool x (- MAX_SAFE_INTEGER).

(** [Joi.number().integer().min(1).required()]. *)
Definition joi_quantity (v : option Number) : option JoiCode :=
  match v with
  | None => Some any_required
  | Some x =>
      if joi_unsafe x then Some number_unsafe
      else if negb (is_integer x) then Some number_integer
      else if Qlt_bool x 1 then Some number_min
      else None
  end.

(** [Joi.number().min(0).required()]. *)
Definition joi_price (v : option Number) : option JoiCode :=
  match v with
  | None => Some any_required
  | Some x =>
      if joi_unsafe x then Some number_unsafe
      else if Qlt_bool x 0 then Some number_min
      else None
  end.

(** [Joi.string().valid('card', 'paypal', 'bank_transfer').required()]. *)
Definition joi_paymentMethod (v : option string) : option JoiCode :=
  match v with
  | None => Some any_required
  | Some s =>
      if bool_decide (s ∈ ["card"; "paypal"; "bank_transfer"]) then None
      else Some any_only
  end.

(** The first error among the checks of the keys, in schema order
    (validation stops at the first error). *)
Fixpoint first_error (at_ : list PathSeg)
    (checks : list (string * option JoiCode)) : option JoiError :=
  match checks with
  | [] => None
  | (k, Some c) :: _ => Some (mkJoiError (at_ ++ [Key k]) c)
  | (_, None) :: rest => first_error at_ rest
  end.

(** [orderItemSchema], for the entry at index [i] of [items]. *)
Definition orderItemSchema (i : nat) (it : ItemBody) : option JoiError :=
  first_error [Key "items"; Index i]
    [("product", joi_hex24 true (product it));
     ("variant", joi_hex24 false (variant it));
     ("quantity", joi_quantity (quantity it));
     ("price", joi_price (price it))].

Fixpoint joi_items_from (i : nat) (l : list ItemBody) : option JoiError :=
  match l with
  | [] => None
  | it :: rest =>
      match orderItemSchema i it with
      | Some e => Some e
      | None => joi_items_from (S i) rest
      end
  end.

(** [Joi.array().items(this.orderItemSchema).min(1).required()]: the
    entries are checked first, then the length. *)
Definition joi_items (v : option (list ItemBody)) : option JoiError :=
  match v with
  | None => Some (mkJoiError [Key "items"] any_required)
  | Some l =>
      match joi_items_from 0 l with
      | Some e => Some e
      | None =>
          if (length l <? 1)%nat then Some (mkJoiError [Key "items"] array_min)
          else None
      end
  end.

(** [this.createSchema.validate(request.body).error]. *)
Definition createSchema_validate (b : Body) : option JoiError :=
  match first_error [] [("user", joi_hex24 true (user b))] with
  | Some e => Some e
  | None =>
  match joi_items (items b) with
  | Some e => Some e
  | None =>
  match first_error []
          [("shippingAddress", joi_hex24 true (shippingAddress b));
           ("paymentMethod", joi_paymentMethod (paymentMethod b))] with
  | Some e => Some e
  | None =>
  match unknown b with
  | k :: _ => Some (mkJoiError [Key k] object_unknown)
  | [] => None
  end end end end.

Inductive Message : Type :=
| JoiMessage (e : JoiError)   (* error.details[0].message *)
| Text (s : string).

(** [new ErrorResponse(message, statusCode)]. *)
Record ErrorResponse : Type := mkErrorResponse {
  message : Message;
  statusCode : Z
}.

Inductive Response : Type :=
| Json (status : Z) (order : Order.t)   (* response.status(..).json(..) *)
| Next (e : ErrorResponse).             (* next(new ErrorResponse(..)) *)

(** The document paths Mongoose reads off the body, the ids cast to
    ObjectIds; [None] when a path the document type needs is absent. *)
Definition cast_item (it : ItemBody) : option Order.Item :=
  match product it, quantity it with
  | Some p, Some q =>
      Some (Order.mkItem (cast_ObjectId p) (cast_ObjectId <$> variant it) q
                         (price it))
  | _, _ => None
  end.

Definition cast_body (b : Body) : option Order.Input :=
  match user b, items b, shippingAddress b, paymentMethod b with
  | Some u, Some l, Some a, Some m =>
      match mapM cast_item l with
      | Some its =>
          Some (Order.mkInput (cast_ObjectId u) its (cast_ObjectId a) m
                              None None None)
      | None => None
      end
  | _, _, _, _ => None
  end.

(** [create(request, response, next)]: the body is validated, and only a
    valid body reaches [this.model.create]; any later failure is reported
    as a 500. *)
Definition create (db : Database) (b : Body) : Response :=
  match createSchema_validate b with
  | Some e => Next (mkErrorResponse (JoiMessage e) 400)
  | None =>
      match cast_body b with
      | Some input =>
          match Order.create Order.schema_validate db input with
          | Ok order => Json 201 order
          | Err _ => Next (mkErrorResponse (Text "Error creating order") 500)
          end
      | None => Next (mkErrorResponse (Text "Error creating order") 500)
      end
  end.

End OrderController.

(** ** The computation the specification describes

    [Spec.computeTotal] follows the words of the specification
    (section 4.2, steps 1 to 5), to be compared with [Order.pre_save]. *)

Module Spec.

(** [resolvePrice(productReference)]. *)
Definition resolvePrice (db : Database) (pid : ObjectId) : option Number :=
  Product.price <$> products db !! pid.

(** [resolvePromotion(productReference)]: a promotion whose [productId]
    is the product. *)
Definition resolvePromotion (db : Database) (pid : ObjectId)
    : option Promotion.t :=
  find (fun p => String.eqb (Promotion.productId p) pid) (promotions db).

(** Step 2: the explicit price, otherwise the resolved one. *)
Definition unitPrice (db : Database) (item : Order.Item) : Result Number :=
  match Order.price item with
  | Some x => Ok x
  | None =>
      match resolvePrice db (Order.product item) with
      | Some x => Ok x
      | None => Err (ProductNotFound (Order.product item))
      end
  end.

(** Step 4: the unit price after the promotion of the product, if it has
    one that is valid. *)
Definition discounted (now : Date) (db : Database) (item : Order.Item)
    (u : Number) : Number :=
  match resolvePromotion db (Order.product item) with
  | Some promo =>
      if Promotion.isValid now promo then Promotion.apply now promo u else u
  | None => u
  end.

(** Steps 2 to 4 for one line. *)
Definition lineSubtotal (now : Date) (db : Database) (item : Order.Item)
    : Result Number :=
  match unitPrice db item with
  | Err e => Err e
  | Ok u =>
      if Qlt_bool (Order.quantity item) 1 then Err InvalidQuantity
      else Ok (Order.quantity item * discounted now db item u)
  end.

Definition computeTotal (now : Date) (db : Database)
    (items : list Order.Item) (taxPrice shippingPrice : Number)
    : Result Number :=
  match items with
  | [] => Err EmptyOrder
  | _ =>
      match Promise_all (map (lineSubtotal now db) items) with
      | Err e => Err e
      | Ok subtotals =>
          if Qlt_bool taxPrice 0 || Qlt_bool shippingPrice 0
          then Err InvalidAdjustment
          else Ok (Order.sum_prices subtotals + taxPrice + shippingPrice)
      end
  end.

End Spec.

(** ** Vocabulary of the statements *)

(** The sum over the lines of quantity times unit price, the unit price being
    the explicit price of the line when it has one and the price of the
    product [lookup] finds otherwise. *)
Fixpoint lines_total (lookup : ObjectId -> option Product.t)
    (items : list Order.Item) : Number :=
  match items with
  | [] => 0
  | item :: rest =>
      Order.quantity item
      * match Order.price item with
        | Some x => x
        | None => from_option Product.price 0 (lookup (Order.product item))
        end
      + lines_total lookup rest
  end.

(** Every line references a product of the collection. *)
Definition all_products_found (db : Database) (items : list Order.Item) : Prop :=
  Forall (fun item => is_Some (products db !! Order.product item)) items.

(** No line has a promotion that is valid at [now]. *)
Definition no_applicable_promotion (now : Date) (db : Database)
    (items : list Order.Item) : Prop :=
  Forall (fun item =>
            forall promo,
              Spec.resolvePromotion db (Order.product item) = Some promo ->
              Promotion.isValid now promo = false) items.

(** [maxUsage] is unset, or [currentUsage < maxUsage]. *)
Definition usage_left (p : Promotion.t) : Prop :=
  Promotion.maxUsage p = None
  \/ exists m, Promotion.maxUsage p = Some m /\ Promotion.currentUsage p < m.

(** The total of a result, when there is one. *)
Definition total_of (r : Result Order.t) : option Number :=
  match r with
  | Ok o => Some (Order.totalPrice o)
  | Err _ => None
  end.

(** ** The logger ([Logger])

    The promotion controller keeps a [Logger] in [this.logger] and calls
    methods on it. *)

Module Logger.

(** The methods of the class; the winston loggers are held by the
    properties [logger] and [httpLogger], not by the instance itself. *)
Definition methods : list string :=
  ["expressLogger"; "logDatabaseQuery"; "logErrorWithContext";
   "getLoggerInstance"].

(** Whether the call [this.logger.name(...)] returns; a name that is no
    method of the instance makes the call throw a [TypeError]. *)
Definition responds_to (name : string) : bool :=
  bool_decide (name ∈ methods).

End Logger.

(** ** The promotion controller ([createSchema], [create], [handleError])

    As for orders the request body is typed; [conditions], an object without
    constraints, is left out. *)

Module PromotionController.

Inductive Reason : Type :=
| any_required | any_only | string_empty
| number_unsafe | number_min | number_max | number_integer
| date_min | date_greater
| invalid_id (c : OrderController.JoiCode)
| object_unknown.

Record Body : Type := mkBody {
  name : option string;
  description : option string;
  type : option string;
  value : option Number;
  productId : option string;
  startDate : option Date;
  endDate : option Date;
  minPurchase : option Number;
  maxUsage : option Number;
  unknown : list string
}.

(** What is thrown inside [create]. *)
Inductive Thrown : Type :=
| TypeError                    (* this.logger.info is not a function *)
| ModelError (e : ErrorKind).  (* the rejection of this.model.create *)

(** What [create] answers the request with. *)
Inductive Response : Type :=
| Json (status : Z) (promotion : Promotion.t)
    (* response.status(201).json({success: true, promotion}) *)
| Rejected (key : string) (reason : Reason)
    (* next(new ErrorResponse(error.details[0].message, 400)) *)
| Failed (statusCode : Z) (e : Thrown).
    (* handleError: next(new ErrorResponse(.., statusCode)) *)

(** How a call of [create] ends: with an answer, or with its promise
    rejected by a [TypeError] that nothing in [create] catches, neither
    [response.json] nor [next] having been called. *)
Inductive Outcome : Type :=
| Answered (r : Response)
| Rejects.

(** [handleError(error, message, next)]: it logs with [this.logger.error]
    first; then a Mongoose validation error becomes a 422, anything else a
    500 (a typed body raises no cast error). *)
Definition handleError (e : Thrown) : Outcome :=
  if Logger.responds_to "error" then
    match e with
    | ModelError ValidationError => Answered (Failed 422 e)
    | _ => Answered (Failed 500 e)
    end
  else Rejects.

Section Create.

(** [String.prototype.trim], which both Joi and Mongoose apply to the
    strings of the body. *)
Variable trim : string -> string.

(** [Joi.string().trim().required()] and [Joi.string().trim().optional()]. *)
Definition joi_string (required : bool) (v : option string) : option Reason :=
  match v with
  | None => if required then Some any_required else None
  | Some s => if String.eqb (trim s) "" then Some string_empty else None
  end.

(** [Joi.string().valid('percentage', 'fixed').required()]. *)
Definition joi_type (v : option string) : option Reason :=
  match v with
  | None => Some any_required
  | Some s =>
      if bool_decide (s ∈ ["percentage"; "fixed"]) then None
      else Some any_only
  end.

(** [Joi.number().required().when('type', {is: 'percentage',
    then: Joi.number().min(0.01).max(100),
    otherwise: Joi.number().min(0.01)})]. *)
Definition joi_value (ty : option string) (v : option Number)
    : option Reason :=
  match v with
  | None => Some any_required
  | Some x =>
      if OrderController.joi_unsafe x then Some number_unsafe
      else if bool_decide (ty = Some "percentage")
      then if Qlt_bool x (1 # 100) then Some number_min
           else if Qlt_bool 100 x then Some number_max
           else None
      else if Qlt_bool x (1 # 100) then Some number_min
           else None
  end.

Definition joi_productId (v : option string) : option Reason :=
  invalid_id <$> OrderController.joi_hex24 true v.

(** [Joi.date().iso().min('now').required()]. *)
Definition joi_startDate (now : Date) (v : option Date) : option Reason :=
  match v with
  | None => Some any_required
  | Some d => if (d <? now)%Z then Some date_min else None
  end.

(** [Joi.date().iso().greater(Joi.ref('startDate')).required()]. *)
Definition joi_endDate (start v : option Date) : option Reason :=
  match v with
  | None => Some any_required
  | Some e =>
      match start with
      | Some d => if (e <=? d)%Z then Some date_greater else None
      | None => None
      end
  end.

(** [Joi.number().min(0).optional()]. *)
Definition joi_minPurchase (v : option Number) : option Reason :=
  match v with
  | None => None
  | Some x =>
      if OrderController.joi_unsafe x then Some number_unsafe
      else if Qlt_bool x 0 then Some number_min
      else None
  end.

(** [Joi.number().integer().min(1).optional()]. *)
Definition joi_maxUsage (v : option Number) : option Reason :=
  match v with
  | None => None
  | Some x =>
      if OrderController.joi_unsafe x then Some number_unsafe
      else if negb (OrderController.is_integer x) then Some number_integer
      else if Qlt_bool x 1 then Some number_min
      else None
  end.

Fixpoint first_reason (checks : list (string * option Reason))
    : option (string * Reason) :=
  match checks with
  | [] => None
  | (k, Some r) :: _ => Some (k, r)
  | (_, None) :: rest => first_reason rest
  end.

(** [this.createSchema.validate(request.body).error], the clock of Joi
    reading [now]: the keys in schema order, then the keys the schema does
    not declare. *)
Definition createSchema_validate (now : Date) (b : Body)
    : option (string * Reason) :=
  match
    first_reason
      [("name", joi_string true (name b));
       ("description", joi_string false (description b));
       ("type", joi_type (type b));
       ("value", joi_value (type b) (value b));
       ("productId", joi_productId (productId b));
       ("startDate", joi_startDate now (startDate b));
       ("endDate", joi_endDate (startDate b) (endDate b));
       ("minPurchase", joi_minPurchase (minPurchase b));
       ("maxUsage", joi_maxUsage (maxUsage b))]
  with
  | Some e => Some e
  | None =>
      match unknown b with
      | k :: _ => Some (k, object_unknown)
      | [] => None
      end
  end.

(** The [type] path: the two values of the enum. *)
Definition cast_type (s : string) : option Promotion.PromotionType :=
  if String.eqb s "percentage" then Some Promotion.percentage
  else if String.eqb s "fixed" then Some Promotion.fixed
  else None.

(** [new Promotion(body)]: the schema trims [name], casts [productId] to
    an ObjectId and fills the defaults
    ([active: true], [minPurchase: 0], [currentUsage: 0]); [None] when a
    required path is missing or empty, or [type] is outside the enum. *)
Definition new (b : Body) : option Promotion.t :=
  match name b, type b, value b, productId b, startDate b, endDate b with
  | Some n, Some ty, Some v, Some pid, Some d, Some e =>
      match cast_type ty with
      | Some ty' =>
          if String.eqb (trim n) "" then None
          else Some (Promotion.mk (trim n) ty' v (cast_ObjectId pid) d e true
                                  (default 0 (minPurchase b)) (maxUsage b) 0)
      | None => None
      end
  | _, _, _, _, _, _ => None
  end.

(** [this.model.create(request.body)], the clock of Mongoose reading
    [now]: every path of a new document is validated. *)
Definition model_create (now : Date) (b : Body) : Result Promotion.t :=
  match new b with
  | None => Err ValidationError
  | Some doc =>
      match Promotion.save Promotion.schema_validate now doc with
      | (Ok _, saved) => Ok saved
      | (Err e, _) => Err e
      end
  end.

(** [create(request, response, next)]; Joi reads the clock at [now1],
    Mongoose later at [now2].  The first component is the document
    [this.model.create] has written to the collection, if any; the calls of
    [this.logger] stand where the source has them, and a [TypeError] thrown
    in the [try] block is caught and handed to [handleError]. *)
Definition create (now1 now2 : Date) (b : Body)
    : option Promotion.t * Outcome :=
  match createSchema_validate now1 b with
  | Some (k, r) =>
      if Logger.responds_to "error" then (None, Answered (Rejected k r))
      else (None, handleError TypeError)
  | None =>
      match model_create now2 b with
      | Ok promotion =>
          if Logger.responds_to "info"
          then (Some promotion, Answered (Json 201 promotion))
          else (Some promotion, handleError TypeError)
      | Err e => (None, handleError (ModelError e))
      end
  end.

End Create.

End PromotionController.

(** ** [ErrorResponse] ([src/App/Utils/errorResponse.js]) *)

Module ErrorResponseClass.

(** The template string [`${statusCode}`] of an integer. *)
Definition template (statusCode : Z) : string :=
  NilZero.string_of_int (Z.to_int statusCode).

(** [this.status]:
    [`${statusCode}`.startsWith('4') ? 'fail' : 'error']. *)
Definition status (statusCode : Z) : string :=
  if String.prefix "4" (template statusCode) then "fail" else "error".

End ErrorResponseClass.

(** ** The error middleware ([ErrorHandler.handleError]) *)

Module ErrorHandler.

(** What [instanceof] tells about the error. *)
Inductive ErrorClass : Type :=
| CastError
| MongooseValidationError (errors : list string)
    (* the messages of [Object.values(err.errors)], in order *)
| PlainError.

(** The properties of [err] the handler reads. *)
Record Error : Type := mkError {
  class : ErrorClass;
  statusCode : option Z;
  message : string;
  code : option Z;
  name : string;
  stack : option string
}.

(** The response: [res.status(status).json({success: false, message,
    error: {code: status, details}})]. *)
Record Response : Type := mkResponse {
  status : Z;
  body_message : string;
  details : option string
}.

(** [handleError(err, req, res, next)]; [development] is
    [process.env.NODE_ENV === 'development']. *)
Definition handleError (development : bool) (err : Error) : Response :=
  let statusCode0 :=
    match statusCode err with
    | Some c => if (c =? 0)%Z then 500%Z else c
    | None => 500%Z
    end in
  let message0 :=
    if String.eqb (message err) "" then "Erreur serveur interne"
    else message err in
  let '(statusCode1, message1) :=
    match class err with
    | CastError => (400%Z, "ID invalide")
    | MongooseValidationError errors =>
        (422%Z,
         String.append "Erreur de validation: " (String.concat ", " errors))
    | PlainError =>
        if bool_decide (code err = Some 11000%Z)
        then (409%Z, "Erreur de clé dupliquée")
        else if String.eqb (name err) "UnauthorizedError"
        then (401%Z, "Non autorisé")
        else (statusCode0, message0)
    end in
  let message2 :=
    if (500 <=? statusCode1)%Z
    then "Erreur serveur, veuillez réessayer plus tard"
    else message1 in
  mkResponse statusCode1 message2
             (if development then stack err else None).

End ErrorHandler.

(** ** More vocabulary *)

(** The counter and the cap are whole numbers and the counter is at most
    the cap; no condition when there is no cap. *)
Definition usage_within_cap (p : Promotion.t) : Prop :=
  match Promotion.maxUsage p with
  | None => True
  | Some m =>
      exists c k : Z,
        Promotion.currentUsage p == inject_Z c /\ m == inject_Z k
        /\ (c <= k)%Z
  end.

(** [maxUsage] is unset or 0, or [currentUsage < maxUsage]. *)
Definition usage_open (p : Promotion.t) : Prop :=
  Promotion.maxUsage p = None
  \/ exists m, Promotion.maxUsage p = Some m
               /\ (m == 0 \/ Promotion.currentUsage p < m).

(** A string of 24 hexadecimal digits. *)
Definition hex24 (s : string) : Prop :=
  String.length s = 24%nat /\ OrderController.all_hex s = true.

(** An entry of [items] as [orderItemSchema] wants it; Joi refuses the
    numbers beyond the safe integers. *)
Definition valid_item_body (it : OrderController.ItemBody) : Prop :=
  (exists s, OrderController.product it = Some s /\ hex24 s)
  /\ (forall s, OrderController.variant it = Some s -> hex24 s)
  /\ (exists q, OrderController.quantity it = Some q
                /\ OrderController.is_integer q = true
                /\ 1 <= q /\ q <= MAX_SAFE_INTEGER)
  /\ (exists x, OrderController.price it = Some x
                /\ 0 <= x /\ x <= MAX_SAFE_INTEGER).

(** A creation request as [createSchema] wants it. *)
Definition valid_body (b : OrderController.Body) : Prop :=
  (exists s, OrderController.user b = Some s /\ hex24 s)
  /\ (exists l, OrderController.items b = Some l /\ l <> []
                /\ Forall valid_item_body l)
  /\ (exists s, OrderController.shippingAddress b = Some s /\ hex24 s)
  /\ (exists m, OrderController.paymentMethod b = Some m
                /\ m ∈ ["card"; "paypal"; "bank_transfer"])
  /\ OrderController.unknown b = [].

(** ** Example data: the scenarios of the specification *)

Definition product1 : ObjectId := "64b000000000000000000001".
Definition user1 : ObjectId := "64b0000000000000000000a1".
Definition address1 : ObjectId := "64b0000000000000000000b1".

(** A promotion running from time 0 to time 2000. *)
Definition promotion_of (ty : Promotion.PromotionType) (v : Number)
    (maxUsage : option Number) (currentUsage : Number) : Promotion.t :=
  Promotion.mk "promo" ty v product1 0 2000 true 0 maxUsage currentUsage.

Definition ten_percent : Promotion.t :=
  promotion_of Promotion.percentage 10 None 0.
Definition ten_off : Promotion.t :=
  promotion_of Promotion.fixed 10 None 0.
(** Scenario D: [maxUsage: 1, currentUsage: 1]. *)
Definition used_up : Promotion.t :=
  promotion_of Promotion.percentage 10 (Some 1) 1.
Definition one_left : Promotion.t :=
  promotion_of Promotion.percentage 10 (Some 3) 2.

(** A promotion whose [maxUsage] is 0. *)
Definition zero_cap : Promotion.t :=
  promotion_of Promotion.percentage 10 (Some 0) 0.

(** A promotion not started yet at time 0, which passes every validator. *)
Definition upcoming : Promotion.t :=
  Promotion.mk "promo" Promotion.percentage 10 product1 500 2000 true 0
               (Some 3) 2.

Definition order_of (items : list Order.Item)
    (taxPrice shippingPrice : option Number) : Order.t :=
  Order.new (Order.mkInput user1 items address1 "card"
                           taxPrice shippingPrice None).

(** One product, priced 20, with a 10% promotion valid at time 1000. *)
Definition shop : Database :=
  mkDatabase {[ product1 := Product.mk "product" 20 ]} [ten_percent].

(** The same product without any promotion. *)
Definition plain_shop : Database :=
  mkDatabase {[ product1 := Product.mk "product" 20 ]} [].

(** No product at all. *)
Definition empty_shop : Database := mkDatabase ∅ [].

(** Scenario A: [{quantity: 2, price: 10}], tax 0, shipping 5. *)
Definition order_A : Order.t :=
  order_of [Order.mkItem product1 None 2 (Some 10)] (Some 0) (Some 5).

(** Scenario B: [{quantity: 3, price: 20}], tax and shipping 0. *)
Definition order_B : Order.t :=
  order_of [Order.mkItem product1 None 3 (Some 20)] None None.

(** [upcoming] with its counter set over the cap. *)
Definition over_cap : Promotion.t := Promotion.set_currentUsage 7 upcoming.

(** Two lines, one with an explicit price and one without. *)
Definition line_priced : Order.Item := Order.mkItem product1 None 2 (Some 10).
Definition line_unpriced : Order.Item := Order.mkItem product1 None 3 None.
Definition order_two_lines : Order.t :=
  order_of [line_priced; line_unpriced] (Some 1) (Some 5).

Definition order_without_items : Order.t := order_of [] (Some 2) (Some 5).

Definition order_negative_tax : Order.t :=
  order_of [Order.mkItem product1 None 2 (Some 10)] (Some (-5)) None.

Definition body_without_items : OrderController.Body :=
  OrderController.mkBody (Some user1) (Some []) (Some address1)
                         (Some "card") [].

(** The request for scenario B, and the explicit prices and quantities a
    created order has. *)
Definition body_B : OrderController.Body :=
  OrderController.mkBody (Some user1)
    (Some [OrderController.mkItemBody (Some product1) None (Some 3) (Some 20)])
    (Some address1) (Some "card") [].

(** A line as a created order has it: a quantity of at least 1 and an
    explicit price of at least 0. *)
Definition created_item (item : Order.Item) : Prop :=
  1 <= Order.quantity item
  /\ exists x, Order.price item = Some x /\ 0 <= x.

(** A request for a promotion of 10% running from time 500 to 2000, with
    three uses. *)
Definition promotion_body : PromotionController.Body :=
  PromotionController.mkBody (Some "promo") None (Some "percentage") (Some 10)
    (Some product1) (Some 500%Z) (Some 2000%Z) None (Some 3) [].

(** Whether the decimal writing of a status code below 10000 starts with
    the digit 4. *)
Definition leading_four (c : Z) : bool :=
  ((c =? 4) || (40 <=? c) && (c <=? 49) || (400 <=? c) && (c <=? 499)
   || (4000 <=? c) && (c <=? 4999))%Z.

(** The message of every response with a status of 500 or more. *)
Definition generic_message : string :=
  "Erreur serveur, veuillez réessayer plus tard".

(** A controller's [ErrorResponse(message, statusCode)] as the middleware
    sees it: a plain error without [code], named ['Error']. *)
Definition operational_error (message : string) (statusCode : Z)
    : ErrorHandler.Error :=
  ErrorHandler.mkError ErrorHandler.PlainError (Some statusCode) message
                       None "Error" None.

(** * Properties *)

(** ** Comparisons on numbers *)

Lemma Qlt_bool_iff (x y : Number) : Qlt_bool x y = true <-> x < y.
Proof.
  unfold Qlt_bool. rewrite negb_true_iff.
  split.
  - intros H. apply Qnot_le_lt. intros Hle.
    apply Qle_bool_iff in Hle. congruence.
  - intros H. destruct (Qle_bool y x) eqn:E; [|reflexivity].
    apply Qle_bool_iff in E. apply Qlt_not_le in H. contradiction.
Qed.

Lemma Qlt_bool_false_iff (x y : Number) : Qlt_bool x y = false <-> y <= x.
Proof.
  unfold Qlt_bool. rewrite negb_false_iff. apply Qle_bool_iff.
Qed.

Lemma Qge_bool_iff (x y : Number) : Qge_bool x y = true <-> y <= x.
Proof. apply Qle_bool_iff. Qed.

Lemma truthy_iff (x : Number) : truthy x = true <-> ~ x == 0.
Proof.
  unfold truthy. rewrite negb_true_iff. split.
  - intros H. apply Qeq_bool_neq. exact H.
  - intros H. destruct (Qeq_bool x 0) eqn:E; [|reflexivity].
    apply Qeq_bool_iff in E. contradiction.
Qed.

Lemma truthy_of_min_1 (m : Number) : 1 <= m -> truthy m = true.
Proof. intros H. apply truthy_iff. intros E. rewrite E in H. lra. Qed.

(** ** Promotions *)

Section PromotionFacts.

Import Promotion.

(** The guard of the hook and of [incrementUsage], for a document whose
    [maxUsage] passes its validator ([min: 1]). *)
Lemma usage_reached_iff (p : t) :
  validate_maxUsage p = true ->
  usage_reached p = true <->
  exists m, maxUsage p = Some m /\ m <= currentUsage p.
Proof.
  unfold validate_maxUsage, usage_reached. intros Hm.
  destruct (maxUsage p) as [m|].
  - apply Qle_bool_iff in Hm. rewrite truthy_of_min_1 by exact Hm.
    cbn [andb]. rewrite Qge_bool_iff. split.
    + intros H. exists m. split; [reflexivity | exact H].
    + intros (m' & E & H). injection E as ->. exact H.
  - split; [discriminate | intros (m & E & _); discriminate].
Qed.

Lemma usage_reached_false_iff (p : t) :
  validate_maxUsage p = true ->
  usage_reached p = false <->
  (maxUsage p = None \/ exists m, maxUsage p = Some m /\ currentUsage p < m).
Proof.
  unfold validate_maxUsage, usage_reached. intros Hm.
  destruct (maxUsage p) as [m|].
  - apply Qle_bool_iff in Hm. rewrite truthy_of_min_1 by exact Hm.
    cbn [andb]. unfold Qge_bool. split.
    + intros H. right. exists m. split; [reflexivity|].
      apply Qlt_bool_iff. unfold Qlt_bool. rewrite H. reflexivity.
    + intros [E | (m' & E & H)]; [discriminate|]. injection E as ->.
      apply Qlt_bool_iff in H. unfold Qlt_bool in H.
      apply negb_true_iff in H. exact H.
  - split; [intros _; left; reflexivity | reflexivity].
Qed.

(** The hook changes nothing but [active]. *)
Lemma pre_save_fields (p : t) :
  maxUsage (pre_save p) = maxUsage p
  /\ currentUsage (pre_save p) = currentUsage p
  /\ type (pre_save p) = type p /\ value (pre_save p) = value p
  /\ startDate (pre_save p) = startDate p
  /\ endDate (pre_save p) = endDate p.
Proof. unfold pre_save. destruct (usage_reached p); cbn; tauto. Qed.

Lemma pre_save_active (p : t) :
  active (pre_save p) = if usage_reached p then false else active p.
Proof. unfold pre_save. destruct (usage_reached p); reflexivity. Qed.

(** [isValid] spelled out, for a document whose [maxUsage] passes its
    validator. *)
Lemma isValid_true_iff (now : Date) (p : t) :
  validate_maxUsage p = true ->
  isValid now p = true <->
  active p = true /\ (startDate p <= now <= endDate p)%Z /\ usage_left p.
Proof.
  intros Hm.
  unfold isValid, usage_left. rewrite !andb_true_iff, !Z.leb_le.
  unfold validate_maxUsage in Hm.
  destruct (maxUsage p) as [m|].
  - apply Qle_bool_iff in Hm. rewrite truthy_of_min_1 by exact Hm.
    cbn [negb orb]. rewrite Qlt_bool_iff. split.
    + intros [[[Ha Hs] He] Hu]. repeat split; try assumption.
      right. exists m. split; [reflexivity | exact Hu].
    + intros (Ha & [Hs He] & [E | (m' & E & Hu)]); [discriminate|].
      injection E as ->. repeat split; assumption.
  - split.
    + intros [[[Ha Hs] He] _]. repeat split; try assumption.
      left; reflexivity.
    + intros (Ha & [Hs He] & _). repeat split; assumption.
Qed.

(** The three conjuncts of [isValid] that do not depend on the usage
    counters. *)
Lemma isValid_true_inv (now : Date) (p : t) :
  isValid now p = true ->
  active p = true /\ (startDate p <= now <= endDate p)%Z.
Proof.
  unfold isValid. rewrite !andb_true_iff, !Z.leb_le. tauto.
Qed.

(** The guard of the hook and of [incrementUsage], for every document: a
    [maxUsage] of 0 is falsy and counts as no cap. *)
Lemma usage_reached_true_iff (p : t) :
  usage_reached p = true <->
  exists m, maxUsage p = Some m /\ ~ m == 0 /\ m <= currentUsage p.
Proof.
  unfold usage_reached. destruct (maxUsage p) as [m|].
  - rewrite andb_true_iff, truthy_iff, Qge_bool_iff. split.
    + intros [Hnz Hle]. exists m. split; [reflexivity | split; assumption].
    + intros (m' & E & Hnz & Hle). injection E as ->. split; assumption.
  - split; [discriminate | intros (m & E & _); discriminate].
Qed.

Lemma usage_reached_open_iff (p : t) :
  usage_reached p = false <-> usage_open p.
Proof.
  unfold usage_reached, usage_open. destruct (maxUsage p) as [m|].
  - destruct (truthy m) eqn:Et; cbn [andb].
    + apply truthy_iff in Et. unfold Qge_bool. split.
      * intros H. right. exists m. split; [reflexivity|]. right.
        apply Qlt_bool_iff. unfold Qlt_bool. rewrite H. reflexivity.
      * intros [E | (m' & E & [H | H])]; [discriminate | |];
          injection E as ->; [contradiction|].
        apply Qlt_bool_iff in H. unfold Qlt_bool in H.
        apply negb_true_iff in H. exact H.
    + split; [|reflexivity]. intros _. right. exists m.
      split; [reflexivity|]. left.
      unfold truthy in Et. apply negb_false_iff in Et.
      apply Qeq_bool_iff in Et. exact Et.
  - split; [intros _; left; reflexivity | reflexivity].
Qed.

(** [isValid] spelled out, for every document. *)
Lemma isValid_open_iff (now : Date) (p : t) :
  isValid now p = true <->
  active p = true /\ (startDate p <= now <= endDate p)%Z /\ usage_open p.
Proof.
  rewrite <- usage_reached_open_iff.
  unfold isValid, usage_reached. rewrite !andb_true_iff, !Z.leb_le.
  destruct (maxUsage p) as [m|].
  - unfold Qlt_bool, Qge_bool. destruct (truthy m), (Qle_bool m (currentUsage p));
      cbn [negb orb andb]; intuition congruence.
  - intuition congruence.
Qed.

End PromotionFacts.

Section PromotionClaims.

Import Promotion.

(** C4, as amended.  For every promotion and every time [now], [isValid]
    returns [true] exactly when [active] is [true],
    [startDate <= now <= endDate], and [maxUsage] is unset, is 0, or
    [currentUsage < maxUsage].  Both date bounds are inclusive: a promotion
    with [startDate = now] or [endDate = now] is valid, the other conditions
    holding. *)
Theorem isValid_iff (now : Date) (p : t) :
  (isValid now p = true <->
     active p = true /\ (startDate p <= now <= endDate p)%Z /\ usage_open p)
  /\ (active p = true -> startDate p = now -> (now <= endDate p)%Z ->
      usage_open p -> isValid now p = true)
  /\ (active p = true -> endDate p = now -> (startDate p <= now)%Z ->
      usage_open p -> isValid now p = true).
Proof.
  pose proof (isValid_open_iff now p) as Hiff.
  split; [exact Hiff|].
  split; intros Ha Hd Hb Hu; apply Hiff;
    (split; [exact Ha | split; [lia | exact Hu]]).
Qed.

Lemma isValid_iff_witness :
  isValid 0 one_left = true /\ isValid 2000 one_left = true
  /\ isValid 2001 one_left = false.
Proof.
  assert (Hu : usage_open one_left).
  { right. exists 3. split; [reflexivity | right; reflexivity]. }
  destruct (isValid_iff 0 one_left) as (_ & Hstart & _).
  destruct (isValid_iff 2000 one_left) as (_ & _ & Hend).
  split; [apply Hstart; [reflexivity | reflexivity | | exact Hu];
          vm_compute; discriminate|].
  split; [apply Hend; [reflexivity | reflexivity | | exact Hu];
          vm_compute; discriminate|].
  destruct (isValid 2001 one_left) eqn:E; [|reflexivity].
  apply (proj1 (isValid_iff 2001 one_left)) in E.
  destruct E as (_ & [_ Hle] & _). vm_compute in Hle.
  exfalso. apply Hle. reflexivity.
Defined.

(** C4, as stated, fails on a promotion whose [maxUsage] is 0: the cap is
    set and [currentUsage < maxUsage] does not hold, yet [isValid] returns
    [true], the code reading a [maxUsage] of 0 as no cap. *)
Lemma isValid_zero_cap_counterexample :
  maxUsage zero_cap = Some 0
  /\ isValid 1000 zero_cap = true
  /\ ~ (isValid 1000 zero_cap = true <->
        active zero_cap = true
        /\ (startDate zero_cap <= 1000 <= endDate zero_cap)%Z
        /\ usage_left zero_cap).
Proof.
  split; [reflexivity|]. split; [reflexivity|].
  intros [H _]. destruct (H eq_refl) as (_ & _ & [E | (m & E & Hlt)]).
  - discriminate E.
  - injection E as <-. vm_compute in Hlt. discriminate Hlt.
Qed.

(** A [maxUsage] of [0] is falsy, hence read as "no cap": the validator
    of the path is what rules it out. *)
Example isValid_maxUsage_zero :
  isValid 1000 (promotion_of percentage 10 (Some 0) 0) = true.
Proof. reflexivity. Qed.

(** C6.  For every promotion that is not valid at application time and
    every price, [apply] returns the price unchanged, without an error:
    so it does when the promotion is inactive, when [now] is outside its
    date window, and (its [maxUsage] passing its validator) when
    [currentUsage >= maxUsage]. *)
Theorem apply_invalid_noop (now : Date) (p : t) (price : Number) :
  (isValid now p = false -> Promotion.apply now p price = price)
  /\ (active p = false -> Promotion.apply now p price = price)
  /\ ((now < startDate p)%Z -> Promotion.apply now p price = price)
  /\ ((endDate p < now)%Z -> Promotion.apply now p price = price)
  /\ (validate_maxUsage p = true ->
      (exists m, maxUsage p = Some m /\ m <= currentUsage p) ->
      Promotion.apply now p price = price).
Proof.
  assert (Hno : isValid now p = false -> Promotion.apply now p price = price).
  { intros H. unfold Promotion.apply. rewrite H. reflexivity. }
  split; [exact Hno|].
  repeat split; intros H; try intros H'; apply Hno;
    (destruct (isValid now p) eqn:E; [exfalso|reflexivity]).
  - apply isValid_true_inv in E. destruct E as [Ha _]. congruence.
  - apply isValid_true_inv in E. lia.
  - apply isValid_true_inv in E. lia.
  - apply (isValid_true_iff now p H) in E.
    destruct E as (_ & _ & Hu). destruct H' as (m & Em & Hle).
    destruct Hu as [Hu | (m' & Em' & Hu)]; [congruence|].
    rewrite Em in Em'. injection Em' as <-.
    apply Qlt_not_le in Hu. contradiction.
Qed.

(** Scenario D: with [maxUsage: 1] and [currentUsage: 1], [isValid] is
    [false] and [apply] returns its input. *)
Lemma apply_invalid_noop_witness :
  validate_maxUsage used_up = true
  /\ isValid 1000 used_up = false
  /\ Promotion.apply 1000 used_up 20 = 20.
Proof.
  split; [reflexivity|]. split; [reflexivity|].
  destruct (apply_invalid_noop 1000 used_up 20) as (_ & _ & _ & _ & Hused).
  apply Hused; [reflexivity|].
  exists 1. split; [reflexivity | apply Qle_refl].
Defined.

(** C5.  For every promotion valid at application time and every
    non-negative price: a percentage promotion with [value] in (0,100]
    makes [apply] return [price * (1 - value/100)], which is neither
    greater than the price nor negative; a fixed promotion makes [apply]
    return [max(0, price - value)], which is not negative, so that a fixed
    promotion of value 10 applied to the price 5 returns 0. *)
Theorem apply_valid (now : Date) (p : t) (price : Number) :
  isValid now p = true ->
  0 <= price ->
  (type p = percentage -> 0 < value p -> value p <= 100 ->
     Promotion.apply now p price = price * (1 - value p / 100)
     /\ Promotion.apply now p price <= price
     /\ 0 <= Promotion.apply now p price)
  /\ (type p = fixed ->
      Promotion.apply now p price = Math_max 0 (price - value p)
      /\ 0 <= Promotion.apply now p price)
  /\ (type p = fixed -> value p == 10 -> price == 5 ->
      Promotion.apply now p price == 0).
Proof.
  intros Hv Hprice. unfold Promotion.apply. rewrite Hv. cbn [negb].
  split; [|split].
  - intros -> Hpos Hle. split; [reflexivity|].
    assert (E : price * (1 - value p / 100)
                == price - price * value p * (1 # 100)).
    { unfold Qdiv. change (/ 100) with (1 # 100). ring. }
    rewrite E. split; nra.
  - intros ->. split; [reflexivity|]. apply Q.le_max_l.
  - intros -> Hval Hp. unfold Math_max. apply Q.max_l.
    rewrite Hval, Hp. discriminate.
Qed.

(** Scenarios B and C: 10% off 20 is 18; 10 off 5 is 0. *)
Lemma apply_valid_witness :
  isValid 1000 ten_off = true /\ 0 <= 5
  /\ Promotion.apply 1000 ten_off 5 == 0
  /\ Promotion.apply 1000 ten_percent 20 == 18.
Proof.
  split; [reflexivity|]. split; [discriminate|]. split.
  - assert (H5 : 0 <= 5) by discriminate.
    destruct (apply_valid 1000 ten_off 5 eq_refl H5) as (_ & _ & Hfixed).
    apply Hfixed; reflexivity.
  - assert (H20 : 0 <= 20) by discriminate.
    destruct (apply_valid 1000 ten_percent 20 eq_refl H20) as (Hpct & _).
    assert (Hpos : 0 < 10) by reflexivity.
    assert (Hle : 10 <= 100) by discriminate.
    destruct (Hpct eq_refl Hpos Hle) as (-> & _).
    vm_compute. reflexivity.
Defined.

(** C9.  After every successful save of a promotion whose [maxUsage],
    when set, passes its validator, the document has [active = false]
    whenever [maxUsage] is set and [currentUsage >= maxUsage]: the
    pre-save hook runs on every save, whatever the counters were before
    it, and touches nothing but [active]. *)
Theorem save_deactivates_exhausted
    (validate : Date -> t -> bool) (now : Date) (p p' : t) :
  validate_maxUsage p = true ->
  save validate now p = (Ok tt, p') ->
  (forall m, maxUsage p' = Some m -> m <= currentUsage p' ->
             active p' = false)
  /\ maxUsage p' = maxUsage p /\ currentUsage p' = currentUsage p.
Proof.
  intros Hm Hsave. unfold save in Hsave.
  destruct (validate now p); [|discriminate].
  injection Hsave as <-.
  destruct (pre_save_fields p) as (Emax & Ecur & _).
  split; [|split; assumption].
  intros m Em Hle. rewrite Emax in Em. rewrite Ecur in Hle.
  rewrite pre_save_active.
  replace (usage_reached p) with true; [reflexivity|].
  symmetry. apply (usage_reached_iff p Hm). exists m. split; assumption.
Qed.

(** A promotion saved with [currentUsage: 7] over [maxUsage: 3]. *)
Lemma save_deactivates_exhausted_witness :
  validate_maxUsage over_cap = true
  /\ save schema_validate 0 over_cap = (Ok tt, set_active false over_cap)
  /\ active (set_active false over_cap) = false.
Proof.
  split; [reflexivity|]. split; [reflexivity|].
  apply (save_deactivates_exhausted schema_validate 0 over_cap
           (set_active false over_cap) eq_refl eq_refl) with (m := 3).
  - reflexivity.
  - discriminate.
Defined.

(** C3, as amended.  For every promotion: [incrementUsage] fails with
    [UsageExceeded] exactly when [maxUsage] is set, is not 0, and
    [currentUsage >= maxUsage] at call time, and then leaves the document as
    it was; when it succeeds, [currentUsage] has grown by exactly 1 and
    [active] is [false] if [maxUsage] is not 0 and the new count reaches it,
    and unchanged otherwise. *)
Theorem incrementUsage_spec
    (validate : Date -> t -> bool) (now : Date) (p : t) :
  let r := fst (incrementUsage validate now p) in
  let p' := snd (incrementUsage validate now p) in
  (r = Err UsageExceeded <->
     exists m, maxUsage p = Some m /\ ~ m == 0 /\ m <= currentUsage p)
  /\ (r = Err UsageExceeded -> p' = p)
  /\ (r = Ok tt ->
      currentUsage p' = currentUsage p + 1
      /\ (forall m, maxUsage p = Some m -> ~ m == 0 ->
                    m <= currentUsage p + 1 -> active p' = false)
      /\ (maxUsage p = None
          \/ (exists m, maxUsage p = Some m
                        /\ (m == 0 \/ currentUsage p + 1 < m)) ->
          active p' = active p)).
Proof.
  intros r p'. subst r p'. unfold incrementUsage.
  pose proof (usage_reached_true_iff p) as Hreach.
  destruct (usage_reached p) eqn:Eu; cbn [fst snd].
  - split; [|split].
    + split; [intros _; apply Hreach; reflexivity | reflexivity].
    + reflexivity.
    + discriminate.
  - set (q := set_currentUsage (currentUsage p + 1) p).
    unfold save. destruct (validate now q); cbn [fst snd].
    + split; [|split].
      * split; [discriminate|]. intros H. apply Hreach in H. discriminate.
      * discriminate.
      * intros _. rewrite pre_save_active.
        destruct (pre_save_fields q) as (_ & Ecur & _).
        split; [exact Ecur|]. split.
        -- intros m Em Hnz Hle.
           replace (usage_reached q) with true; [reflexivity|].
           symmetry. apply (usage_reached_true_iff q).
           exists m. split; [exact Em | split; assumption].
        -- intros Hleft.
           replace (usage_reached q) with false; [reflexivity|].
           symmetry. apply (usage_reached_open_iff q). exact Hleft.
    + split; [|split].
      * split; [discriminate|]. intros H. apply Hreach in H. discriminate.
      * discriminate.
      * discriminate.
Qed.

(** Scenario D, then a promotion with one use left. *)
Lemma incrementUsage_spec_witness :
  incrementUsage schema_validate 0 used_up = (Err UsageExceeded, used_up)
  /\ incrementUsage schema_validate 0 upcoming
     = (Ok tt, set_active false (set_currentUsage (2 + 1) upcoming)).
Proof.
  split.
  - destruct (incrementUsage_spec schema_validate 0 used_up)
      as (Hfail & Hsame & _).
    assert (E : fst (incrementUsage schema_validate 0 used_up)
                = Err UsageExceeded).
    { apply Hfail. exists 1. split; [reflexivity|].
      split; [discriminate | apply Qle_refl]. }
    specialize (Hsame E).
    destruct (incrementUsage schema_validate 0 used_up) as [r q].
    cbn [fst snd] in E, Hsame. rewrite E, Hsame. reflexivity.
  - destruct (incrementUsage_spec schema_validate 0 upcoming)
      as (_ & _ & Hok).
    destruct (Hok eq_refl) as (_ & Hoff & _).
    reflexivity.
Defined.

(** C3, as stated, fails on a promotion whose [maxUsage] is 0: the cap is
    set and [currentUsage >= maxUsage] holds, yet [incrementUsage] does not
    fail with [UsageExceeded]; it raises the counter and hands the document
    to [save], whose validation rejects it. *)
Lemma incrementUsage_zero_cap_counterexample :
  (exists m, maxUsage zero_cap = Some m /\ m <= currentUsage zero_cap)
  /\ incrementUsage schema_validate 0 zero_cap
     = (Err ValidationError, set_currentUsage (0 + 1) zero_cap)
  /\ fst (incrementUsage schema_validate 0 zero_cap) <> Err UsageExceeded.
Proof.
  split; [exists 0; split; [reflexivity | apply Qle_refl]|].
  split; [reflexivity | discriminate].
Qed.

End PromotionClaims.

(** ** Orders *)

Section OrderFacts.

Import Order.

(** [reduce] from an accumulator [a] adds the prices to [a]. *)
Lemma fold_prices_cons (x : Number) (l : list Number) (a : Number) :
  fold_left (fun acc price => acc + price) (x :: l) a
  = fold_left (fun acc price => acc + price) l (a + x).
Proof. reflexivity. Qed.

(** When every product is found, every line yields its price, and their
    [reduce] is the sum of the lines. *)
Lemma item_totals_found (db : Database) (l : list Item) :
  all_products_found db l ->
  exists prices,
    Promise_all (map (item_total db) l) = Ok prices
    /\ forall a, fold_left (fun acc price => acc + price) prices a
                 == a + lines_total (fun id => products db !! id) l.
Proof.
  induction 1 as [|item rest [prod Hprod] _ IH].
  - exists []. split; [reflexivity|]. intros a. cbn. ring.
  - destruct IH as (prices & Hall & Hsum).
    exists (quantity item * itemPrice item prod :: prices). split.
    + cbn [map Promise_all]. unfold item_total at 1. rewrite Hprod, Hall.
      reflexivity.
    + intros a. rewrite fold_prices_cons, Hsum. cbn [lines_total].
      rewrite Hprod. unfold itemPrice. cbn [from_option].
      destruct (price item); ring.
Qed.

(** A rejection comes from a line whose product is not found. *)
Lemma item_totals_error (db : Database) (l : list Item) (e : ErrorKind) :
  Promise_all (map (item_total db) l) = Err e ->
  exists item, item ∈ l /\ products db !! product item = None
               /\ e = ProductNotFound (product item).
Proof.
  induction l as [|item rest IH]; cbn [map Promise_all]; [discriminate|].
  unfold item_total at 1.
  destruct (products db !! product item) as [prod|] eqn:Hprod.
  - destruct (Promise_all (map (item_total db) rest)) as [prices|e'];
      [discriminate|].
    intros [= <-]. destruct (IH eq_refl) as (it & Hin & Hnone & He).
    exists it. split; [right; exact Hin | split; assumption].
  - intros [= <-]. exists item. split; [left | split; [exact Hprod|]];
      reflexivity.
Qed.

(** A line whose product is not found makes the whole computation fail. *)
Lemma item_totals_missing (db : Database) (l : list Item) :
  ~ all_products_found db l ->
  exists e, Promise_all (map (item_total db) l) = Err e.
Proof.
  intros Hnot.
  destruct (Promise_all (map (item_total db) l)) as [prices|e] eqn:E;
    [|exists e; reflexivity].
  exfalso. apply Hnot. clear Hnot. revert prices E.
  induction l as [|item rest IH]; intros prices E; [constructor|].
  cbn [map Promise_all] in E. unfold item_total at 1 in E.
  destruct (products db !! product item) as [prod|] eqn:Hprod;
    [|discriminate].
  destruct (Promise_all (map (item_total db) rest)) as [ps|];
    [|discriminate].
  constructor; [rewrite Hprod; eexists; reflexivity | apply (IH ps eq_refl)].
Qed.

(** The hook, when every product is found. *)
Lemma pre_save_found (db : Database) (o : t) :
  all_products_found db (items o) ->
  exists total,
    pre_save db o = Ok (set_totalPrice total o)
    /\ total == lines_total (fun id => products db !! id) (items o)
                + taxPrice o + shippingPrice o.
Proof.
  intros Hall. destruct (item_totals_found db (items o) Hall)
    as (prices & Hprices & Hsum).
  exists (sum_prices prices + taxPrice o + shippingPrice o).
  unfold pre_save. rewrite Hprices. split; [reflexivity|].
  unfold sum_prices. rewrite Hsum. ring.
Qed.

(** The hook, when some product is not found. *)
Lemma pre_save_missing (db : Database) (o : t) :
  ~ all_products_found db (items o) ->
  exists item,
    item ∈ items o /\ products db !! product item = None
    /\ pre_save db o = Err (ProductNotFound (product item)).
Proof.
  intros Hnot. destruct (item_totals_missing db (items o) Hnot) as [e He].
  destruct (item_totals_error db (items o) e He) as (item & Hin & Hnone & ->).
  exists item. split; [exact Hin | split; [exact Hnone|]].
  unfold pre_save. rewrite He. reflexivity.
Qed.

(** The only error of the hook is a product that is not found. *)
Lemma pre_save_error (db : Database) (o : t) (e : ErrorKind) :
  pre_save db o = Err e ->
  exists item, item ∈ items o /\ products db !! product item = None
               /\ e = ProductNotFound (product item).
Proof.
  unfold pre_save.
  destruct (Promise_all (map (item_total db) (items o))) as [prices|e'] eqn:E;
    [discriminate|].
  intros [= <-]. apply (item_totals_error db (items o) e' E).
Qed.

(** The hook reads the products only. *)
Lemma pre_save_products_only (prods : gmap ObjectId Product.t)
    (promos promos' : list Promotion.t) (o : t) :
  pre_save (mkDatabase prods promos) o = pre_save (mkDatabase prods promos') o.
Proof. reflexivity. Qed.

End OrderFacts.

Section OrderClaims.

Import Order.

(** C1, as amended.  The total computation never consults promotions:
    its result is the same whatever promotions the database holds, and
    when every line references an existing product, each line counts for
    its quantity times its undiscounted unit price, so that the item
    [{quantity: 3, price: 20}] under a valid 10% promotion yields 60. *)
Theorem pre_save_ignores_promotions
    (prods : gmap ObjectId Product.t) (promos : list Promotion.t) (o : t) :
  (forall promos',
      pre_save (mkDatabase prods promos) o
      = pre_save (mkDatabase prods promos') o)
  /\ (all_products_found (mkDatabase prods promos) (items o) ->
      exists total,
        pre_save (mkDatabase prods promos) o = Ok (set_totalPrice total o)
        /\ total == lines_total (fun id => prods !! id) (items o)
                    + taxPrice o + shippingPrice o).
Proof.
  split.
  - intros promos'. apply pre_save_products_only.
  - intros Hall. apply (pre_save_found (mkDatabase prods promos) o Hall).
Qed.

Lemma shop_products_found (promos : list Promotion.t) (q : Number)
    (x : option Number) :
  all_products_found (mkDatabase {[ product1 := Product.mk "product" 20 ]}
                                 promos)
                     [mkItem product1 None q x].
Proof.
  constructor; [|constructor]. cbn [products product].
  rewrite lookup_singleton_eq. eexists; reflexivity.
Qed.

Lemma pre_save_ignores_promotions_witness :
  all_products_found shop (items order_B)
  /\ exists total,
       pre_save shop order_B = Ok (set_totalPrice total order_B)
       /\ total == 60.
Proof.
  split; [apply shop_products_found|].
  destruct (pre_save_ignores_promotions (products shop) (promotions shop)
              order_B) as [_ Htotal].
  destruct (Htotal (shop_products_found _ _ _)) as (total & Hsave & Heq).
  exists total. split; [exact Hsave|]. rewrite Heq. reflexivity.
Defined.

(** C1, as stated, fails on scenario B: the product has a promotion that
    is valid at time 1000, the specification's computation gives 54, the
    hook gives 60. *)
Lemma pre_save_no_discount_counterexample :
  Spec.resolvePromotion shop product1 = Some ten_percent
  /\ Promotion.isValid 1000 ten_percent = true
  /\ (exists t, Spec.computeTotal 1000 shop (items order_B) 0 0 = Ok t
                /\ t == 54)
  /\ exists o', pre_save shop order_B = Ok o'
                /\ totalPrice o' == 60
                /\ ~ totalPrice o'
                     == 3 * Promotion.apply 1000 ten_percent 20 + 0 + 0.
Proof.
  split; [reflexivity|]. split; [reflexivity|]. split.
  - eexists. split; [vm_compute; reflexivity | vm_compute; reflexivity].
  - eexists. split; [vm_compute; reflexivity|].
    split; [vm_compute; reflexivity | vm_compute; discriminate].
Qed.

(** C2, as amended.  For every non-empty list of line items with no
    applicable promotion: when every line references an existing product,
    the total is the sum over the lines of quantity times unit price, plus
    [taxPrice] and [shippingPrice], the unit price being the explicit price
    of the line when it has one and the price of its product otherwise;
    when some line references a product that does not exist, whether or
    not that line has an explicit price, the computation fails with
    [ProductNotFound] for such a line. *)
Theorem pre_save_total (now : Date) (db : Database) (o : t) :
  items o <> [] ->
  no_applicable_promotion now db (items o) ->
  (all_products_found db (items o) ->
     exists total,
       pre_save db o = Ok (set_totalPrice total o)
       /\ total == lines_total (fun id => products db !! id) (items o)
                   + taxPrice o + shippingPrice o)
  /\ (~ all_products_found db (items o) ->
      exists item,
        item ∈ items o /\ products db !! product item = None
        /\ pre_save db o = Err (ProductNotFound (product item))).
Proof.
  intros _ _. split.
  - apply pre_save_found.
  - apply pre_save_missing.
Qed.

(** Scenario A: [{quantity: 2, price: 10}], tax 0, shipping 5, total 25. *)
Lemma pre_save_total_witness :
  items order_A <> []
  /\ no_applicable_promotion 1000 plain_shop (items order_A)
  /\ all_products_found plain_shop (items order_A)
  /\ exists total,
       pre_save plain_shop order_A = Ok (set_totalPrice total order_A)
       /\ total == 25.
Proof.
  assert (Hne : items order_A <> []) by discriminate.
  assert (Hno : no_applicable_promotion 1000 plain_shop (items order_A)).
  { constructor; [|constructor]. intros promo H. discriminate H. }
  split; [exact Hne|]. split; [exact Hno|].
  split; [apply shop_products_found|].
  destruct (pre_save_total 1000 plain_shop order_A Hne Hno) as [Hfound _].
  destruct (Hfound (shop_products_found _ _ _)) as (total & Hsave & Heq).
  exists total. split; [exact Hsave|]. rewrite Heq. reflexivity.
Defined.

(** C2, as stated, fails when the line of scenario A references a product
    that does not exist: the price is explicit, so the specification's
    computation resolves nothing and gives 25; the hook looks the product
    up all the same and fails. *)
Lemma pre_save_explicit_price_counterexample :
  items order_A <> []
  /\ no_applicable_promotion 1000 empty_shop (items order_A)
  /\ Forall (fun item => is_Some (price item)) (items order_A)
  /\ (exists t, Spec.computeTotal 1000 empty_shop (items order_A) 0 5 = Ok t
                /\ t == 25)
  /\ pre_save empty_shop order_A = Err (ProductNotFound product1).
Proof.
  split; [discriminate|]. split.
  { constructor; [|constructor]. intros promo H. discriminate H. }
  split.
  { constructor; [eexists; reflexivity | constructor]. }
  split.
  - eexists. split; [vm_compute; reflexivity | vm_compute; reflexivity].
  - reflexivity.
Qed.

(** C7, as amended.  The total computation itself accepts an empty list
    of line items and yields [taxPrice + shippingPrice] (added to the
    initial 0 of the sum); the empty list is rejected before any total is
    computed by the validation of the creation request, which answers 400
    and, the user id being well formed, reports that [items] has fewer
    than one entry. *)
Theorem empty_items_rejected_on_creation_only (db : Database) :
  (forall o, items o = [] ->
     pre_save db o
     = Ok (set_totalPrice (0 + taxPrice o + shippingPrice o) o))
  /\ (forall b, OrderController.items b = Some [] ->
      exists e,
        OrderController.createSchema_validate b = Some e
        /\ OrderController.create db b
           = OrderController.Next
               (OrderController.mkErrorResponse
                  (OrderController.JoiMessage e) 400))
  /\ (forall b, OrderController.items b = Some [] ->
      OrderController.joi_hex24 true (OrderController.user b) = None ->
      OrderController.createSchema_validate b
      = Some (OrderController.mkJoiError [OrderController.Key "items"]
                                         OrderController.array_min)).
Proof.
  split; [|split].
  - intros o Hnil. unfold pre_save. rewrite Hnil. reflexivity.
  - intros b Hnil.
    assert (H : exists e, OrderController.createSchema_validate b = Some e).
    { unfold OrderController.createSchema_validate.
      destruct (OrderController.first_error []
                  [("user",
                    OrderController.joi_hex24 true (OrderController.user b))])
        as [e|]; [exists e; reflexivity|].
      rewrite Hnil. cbn. eexists; reflexivity. }
    destruct H as [e He]. exists e. split; [exact He|].
    unfold OrderController.create. rewrite He. reflexivity.
  - intros b Hnil Huser. unfold OrderController.createSchema_validate.
    cbn [OrderController.first_error]. rewrite Huser, Hnil. reflexivity.
Qed.

Lemma empty_items_rejected_on_creation_only_witness :
  items order_without_items = []
  /\ total_of (pre_save plain_shop order_without_items) = Some (0 + 2 + 5)
  /\ OrderController.items body_without_items = Some []
  /\ OrderController.create plain_shop body_without_items
     = OrderController.Next
         (OrderController.mkErrorResponse
            (OrderController.JoiMessage
               (OrderController.mkJoiError [OrderController.Key "items"]
                                           OrderController.array_min))
            400).
Proof.
  destruct (empty_items_rejected_on_creation_only plain_shop)
    as (Hhook & Hcreate & Hmin).
  split; [reflexivity|]. split.
  - rewrite (Hhook order_without_items eq_refl). reflexivity.
  - split; [reflexivity|].
    destruct (Hcreate body_without_items eq_refl) as (e & He & ->).
    rewrite (Hmin body_without_items eq_refl eq_refl) in He.
    injection He as <-. reflexivity.
Defined.

(** C7, as stated, fails on an order without items, tax 2 and shipping 5:
    the specification's computation fails with [EmptyOrder], the hook
    returns the total 7. *)
Lemma pre_save_empty_order_counterexample :
  items order_without_items = []
  /\ Spec.computeTotal 1000 plain_shop (items order_without_items) 2 5
     = Err EmptyOrder
  /\ pre_save plain_shop order_without_items <> Err EmptyOrder
  /\ exists o', pre_save plain_shop order_without_items = Ok o'
                /\ totalPrice o' == 7.
Proof.
  split; [reflexivity|]. split; [reflexivity|]. split; [discriminate|].
  eexists. split; [vm_compute; reflexivity | vm_compute; reflexivity].
Qed.

(** C8, as amended.  The total computation checks no sign: [taxPrice] and
    [shippingPrice] default to 0 when absent, the computation never fails
    with [InvalidAdjustment] (nor with any error but [ProductNotFound]),
    and when every line references an existing product both values,
    negative or not, are added to the sum of the line subtotals. *)
Theorem pre_save_adjustments_unchecked (db : Database) :
  (forall i, taxPrice (new i) = default 0 (i_taxPrice i)
             /\ shippingPrice (new i) = default 0 (i_shippingPrice i))
  /\ (forall o e, pre_save db o = Err e -> exists pid, e = ProductNotFound pid)
  /\ (forall o, all_products_found db (items o) ->
      exists total,
        pre_save db o = Ok (set_totalPrice total o)
        /\ total == lines_total (fun id => products db !! id) (items o)
                    + taxPrice o + shippingPrice o).
Proof.
  split; [|split].
  - intros i. split; reflexivity.
  - intros o e He. destruct (pre_save_error db o e He) as (item & _ & _ & ->).
    eexists; reflexivity.
  - intros o. apply pre_save_found.
Qed.

Lemma pre_save_adjustments_unchecked_witness :
  all_products_found plain_shop (items order_negative_tax)
  /\ taxPrice order_negative_tax == -5
  /\ shippingPrice order_negative_tax == 0
  /\ exists total,
       pre_save plain_shop order_negative_tax
       = Ok (set_totalPrice total order_negative_tax)
       /\ total == 15.
Proof.
  destruct (pre_save_adjustments_unchecked plain_shop) as (_ & _ & Hsum).
  split; [apply shop_products_found|].
  split; [reflexivity|]. split; [reflexivity|].
  destruct (Hsum order_negative_tax (shop_products_found _ _ _))
    as (total & Hsave & Heq).
  exists total. split; [exact Hsave|]. rewrite Heq. reflexivity.
Defined.

(** C8, as stated, fails on scenario A's line with tax -5: the
    specification's computation fails with [InvalidAdjustment], the hook
    returns the total 15. *)
Lemma pre_save_negative_tax_counterexample :
  taxPrice order_negative_tax < 0
  /\ Spec.computeTotal 1000 plain_shop (items order_negative_tax) (-5) 0
     = Err InvalidAdjustment
  /\ pre_save plain_shop order_negative_tax <> Err InvalidAdjustment
  /\ exists o', pre_save plain_shop order_negative_tax = Ok o'
                /\ totalPrice o' == 15.
Proof.
  split; [reflexivity|]. split; [vm_compute; reflexivity|].
  split; [vm_compute; discriminate|].
  eexists. split; [vm_compute; reflexivity | vm_compute; reflexivity].
Qed.

(** C10.  A line's explicit price is used whenever it is defined, 0
    included: the unit price is then the explicit price whatever the
    product's price is, and a line with the explicit price 0 whose product
    exists contributes the subtotal 0. *)
Theorem explicit_price_precedence (db : Database) (item : Item) :
  (forall x prod, price item = Some x -> itemPrice item prod = x)
  /\ (forall prod, price item = Some 0 -> itemPrice item prod = 0)
  /\ (forall prod, price item = Some 0 ->
      products db !! product item = Some prod ->
      exists subtotal, item_total db item = Ok subtotal /\ subtotal == 0).
Proof.
  assert (H : forall x prod, price item = Some x -> itemPrice item prod = x).
  { intros x prod Hx. unfold itemPrice. rewrite Hx. reflexivity. }
  split; [exact H|]. split; [intros prod; apply H|].
  intros prod Hx Hprod. unfold item_total. rewrite Hprod.
  eexists. split; [reflexivity|]. rewrite (H 0 prod Hx). ring.
Qed.

(** Four units at the explicit price 0 of a product priced 20. *)
Lemma explicit_price_precedence_witness :
  price (mkItem product1 None 4 (Some 0)) = Some 0
  /\ products shop !! product1 = Some (Product.mk "product" 20)
  /\ exists subtotal,
       item_total shop (mkItem product1 None 4 (Some 0)) = Ok subtotal
       /\ subtotal == 0.
Proof.
  assert (Hprod : products shop !! product1
                  = Some (Product.mk "product" 20))
    by apply lookup_singleton_eq.
  split; [reflexivity|]. split; [exact Hprod|].
  destruct (explicit_price_precedence shop (mkItem product1 None 4 (Some 0)))
    as (_ & _ & Hzero).
  apply (Hzero (Product.mk "product" 20) eq_refl Hprod).
Defined.

End OrderClaims.

(** ** Further properties of promotions *)

Section PromotionExtras.

Import Promotion.

Lemma usage_reached_set_active (b : bool) (p : t) :
  usage_reached (set_active b p) = usage_reached p.
Proof. reflexivity. Qed.

(** X1.  The pre-save hook is idempotent and can only switch [active] off:
    a promotion that is active after the hook was active before it. *)
Theorem pre_save_idempotent (p : t) :
  pre_save (pre_save p) = pre_save p
  /\ (active (pre_save p) = true -> active p = true).
Proof.
  unfold pre_save. destruct (usage_reached p) eqn:E.
  - rewrite usage_reached_set_active, E. split; [reflexivity|].
    cbn. discriminate.
  - rewrite E. split; [reflexivity | trivial].
Qed.

Lemma pre_save_idempotent_witness :
  active (pre_save one_left) = true /\ active one_left = true.
Proof.
  split; [reflexivity|].
  apply (proj2 (pre_save_idempotent one_left)). reflexivity.
Defined.

Lemma isValid_not_reached (now : Date) (p : t) :
  isValid now p = true -> usage_reached p = false.
Proof.
  unfold isValid, usage_reached. rewrite !andb_true_iff.
  intros [_ Hu]. destruct (maxUsage p) as [m|]; [|reflexivity].
  destruct (truthy m); [|reflexivity]. cbn [negb orb andb] in *.
  unfold Qlt_bool in Hu. unfold Qge_bool.
  apply negb_true_iff in Hu. exact Hu.
Qed.

(** X2.  A promotion that [isValid] accepts at some time is never refused
    by [incrementUsage] with [UsageExceeded], whatever [maxUsage] holds and
    whenever the call is made: the call goes on to increment the counter of
    the document by 1. *)
Theorem valid_promotion_not_exceeded
    (validate : Date -> t -> bool) (now now' : Date) (p : t) :
  isValid now p = true ->
  fst (incrementUsage validate now' p) <> Err UsageExceeded
  /\ currentUsage (snd (incrementUsage validate now' p))
     = currentUsage p + 1.
Proof.
  intros Hv. unfold incrementUsage.
  rewrite (isValid_not_reached now p Hv). unfold save.
  destruct (validate now' _); cbn [fst snd].
  - split; [discriminate|]. apply pre_save_fields.
  - split; [discriminate | reflexivity].
Qed.

Lemma valid_promotion_not_exceeded_witness :
  isValid 1000 one_left = true
  /\ fst (incrementUsage schema_validate 1500 one_left) <> Err UsageExceeded.
Proof.
  split; [reflexivity|].
  apply (valid_promotion_not_exceeded schema_validate 1000 1500 one_left).
  reflexivity.
Defined.

Lemma percentage_factor (p : t) :
  validate_value_percentage p = true -> type p = percentage ->
  0 < value p /\ value p <= 100.
Proof.
  unfold validate_value_percentage. intros H Et. rewrite Et in H.
  apply andb_true_iff in H. destruct H as [H1 H2].
  split; [apply Qlt_bool_iff, H1 | apply Qle_bool_iff, H2].
Qed.

Lemma percentage_expand (price v : Number) :
  price * (1 - v / 100) == price - price * v * (1 # 100).
Proof. unfold Qdiv. change (/ 100) with (1 # 100). ring. Qed.

(** X3.  For every promotion whose [value] passes its two validators, at
    every time and for every non-negative price, the price [apply] returns
    lies between 0 and the price it was given, whether the promotion is
    valid or not and whatever its type. *)
Theorem apply_bounds (now : Date) (p : t) (price : Number) :
  validate_value_percentage p = true ->
  validate_value_fixed p = true ->
  0 <= price ->
  0 <= Promotion.apply now p price /\ Promotion.apply now p price <= price.
Proof.
  intros Hpct Hfix Hprice. unfold Promotion.apply.
  destruct (isValid now p); cbn [negb].
  - destruct (type p) eqn:Et.
    + destruct (percentage_factor p Hpct Et) as [Hpos Hle].
      rewrite percentage_expand. split; nra.
    + unfold validate_value_fixed in Hfix. rewrite Et in Hfix.
      apply Qlt_bool_iff in Hfix. unfold Math_max. split.
      * apply Q.le_max_l.
      * apply Q.max_lub; lra.
  - split; [exact Hprice | apply Qle_refl].
Qed.

Lemma apply_bounds_witness :
  validate_value_percentage ten_off = true
  /\ validate_value_fixed ten_off = true
  /\ 0 <= 5
  /\ 0 <= Promotion.apply 1000 ten_off 5
  /\ Promotion.apply 1000 ten_off 5 <= 5.
Proof.
  assert (H5 : 0 <= 5) by discriminate.
  split; [reflexivity|]. split; [reflexivity|]. split; [exact H5|].
  apply (apply_bounds 1000 ten_off 5 eq_refl eq_refl H5).
Defined.

(** X4.  [apply] keeps the order of prices: for a promotion whose [value]
    passes the percentage validator, a lower price never comes out above a
    higher one. *)
Theorem apply_monotone (now : Date) (p : t) (a b : Number) :
  validate_value_percentage p = true ->
  a <= b ->
  Promotion.apply now p a <= Promotion.apply now p b.
Proof.
  intros Hpct Hab. unfold Promotion.apply.
  destruct (isValid now p); cbn [negb]; [|exact Hab].
  destruct (type p) eqn:Et.
  - destruct (percentage_factor p Hpct Et) as [Hpos Hle].
    rewrite !percentage_expand. nra.
  - unfold Math_max. apply Q.max_le_compat; [apply Qle_refl | lra].
Qed.

Lemma apply_monotone_witness :
  validate_value_percentage ten_percent = true
  /\ 10 <= 20
  /\ Promotion.apply 1000 ten_percent 10 <= Promotion.apply 1000 ten_percent 20.
Proof.
  assert (H : 10 <= 20) by discriminate.
  split; [reflexivity|]. split; [exact H|].
  apply (apply_monotone 1000 ten_percent 10 20 eq_refl H).
Defined.

(** X5.  When [incrementUsage] succeeds with the new count at or above
    [maxUsage], the promotion is used up for good: [isValid] is [false] at
    every time, [apply] returns every price unchanged, and any further
    [incrementUsage] fails with [UsageExceeded] and leaves the document
    alone. *)
Theorem incrementUsage_to_cap
    (validate : Date -> t -> bool) (now : Date) (p p' : t) (m : Number) :
  validate_maxUsage p = true ->
  maxUsage p = Some m ->
  m <= currentUsage p + 1 ->
  incrementUsage validate now p = (Ok tt, p') ->
  (forall time, isValid time p' = false)
  /\ (forall time price, Promotion.apply time p' price = price)
  /\ (forall validate' time,
        incrementUsage validate' time p' = (Err UsageExceeded, p')).
Proof.
  intros Hm Em Hle Hinc. unfold incrementUsage in Hinc.
  destruct (usage_reached p); [discriminate|].
  set (q := set_currentUsage (currentUsage p + 1) p) in *.
  assert (Hq : usage_reached q = true).
  { apply (usage_reached_iff q Hm). exists m. split; [exact Em | exact Hle]. }
  unfold save in Hinc. destruct (validate now q); [|discriminate].
  injection Hinc as <-. unfold pre_save. rewrite Hq.
  assert (Hinvalid : forall time, isValid time (set_active false q) = false)
    by reflexivity.
  split; [exact Hinvalid|]. split.
  - intros time price. unfold Promotion.apply. rewrite Hinvalid. reflexivity.
  - intros validate' time. unfold incrementUsage.
    rewrite usage_reached_set_active, Hq. reflexivity.
Qed.

Lemma incrementUsage_to_cap_witness :
  validate_maxUsage upcoming = true
  /\ maxUsage upcoming = Some 3
  /\ 3 <= currentUsage upcoming + 1
  /\ incrementUsage schema_validate 0 upcoming
     = (Ok tt, set_active false (set_currentUsage (2 + 1) upcoming))
  /\ isValid 1000 (set_active false (set_currentUsage (2 + 1) upcoming))
     = false.
Proof.
  assert (H : 3 <= currentUsage upcoming + 1) by discriminate.
  split; [reflexivity|]. split; [reflexivity|]. split; [exact H|].
  split; [reflexivity|].
  apply (incrementUsage_to_cap schema_validate 0 upcoming _ 3
           eq_refl eq_refl H eq_refl).
Defined.

(** X6.  [incrementUsage] keeps the counter within the cap: if
    [maxUsage], when set, is at least 1 (its validator) and the counter and
    [maxUsage] are whole numbers with the counter at most [maxUsage], then
    the counter and [maxUsage] of the document after the call are whole
    numbers with the counter at most [maxUsage] too, whether the call
    succeeded, was refused with [UsageExceeded] or was rejected by the
    validation. *)
Theorem incrementUsage_within_cap
    (validate : Date -> t -> bool) (now : Date) (p : t) :
  validate_maxUsage p = true ->
  usage_within_cap p ->
  usage_within_cap (snd (incrementUsage validate now p)).
Proof.
  intros Hm Hcap. unfold incrementUsage.
  destruct (usage_reached p) eqn:Eu; [exact Hcap|].
  set (q := set_currentUsage (currentUsage p + 1) p).
  assert (Hq : usage_within_cap q).
  { apply (usage_reached_false_iff p Hm) in Eu.
    unfold usage_within_cap in *. subst q. cbn [maxUsage set_currentUsage].
    destruct (maxUsage p) as [m|] eqn:Em; [|exact I].
    destruct Hcap as (c & k & Hc & Hk & Hck).
    destruct Eu as [E | (m' & E & Hlt)]; [discriminate|].
    injection E as <-.
    rewrite Hc, Hk in Hlt. rewrite <- Zlt_Qlt in Hlt.
    exists (c + 1)%Z, k. cbn [currentUsage].
    split; [rewrite inject_Z_plus; apply Qplus_comp; [exact Hc | reflexivity]|].
    split; [exact Hk | lia]. }
  unfold save. destruct (validate now q); cbn [snd]; [|exact Hq].
  unfold usage_within_cap in *.
  destruct (pre_save_fields q) as (-> & -> & _). exact Hq.
Qed.

Lemma incrementUsage_within_cap_witness :
  validate_maxUsage one_left = true
  /\ usage_within_cap one_left
  /\ usage_within_cap (snd (incrementUsage schema_validate 0 one_left)).
Proof.
  assert (H : usage_within_cap one_left).
  { exists 2%Z, 3%Z. repeat split; try reflexivity; discriminate. }
  split; [reflexivity|]. split; [exact H|].
  apply (incrementUsage_within_cap schema_validate 0 one_left eq_refl H).
Defined.

(** X7.  The validator of [startDate] and the date window of [isValid]
    agree at one instant only: a promotion that passes the validator and is
    valid at the same time starts exactly then.  Hence a save that runs
    every validator of the schema rejects a promotion that has already
    started, and [incrementUsage] on such a promotion with uses left fails
    with the validation error after it has raised the counter of the
    document. *)
Theorem started_promotion_fails_validation (now : Date) (p : t) :
  (validate_startDate now p = true -> isValid now p = true ->
   startDate p = now)
  /\ ((startDate p < now)%Z ->
      save schema_validate now p = (Err ValidationError, p))
  /\ ((startDate p < now)%Z -> usage_reached p = false ->
      incrementUsage schema_validate now p
      = (Err ValidationError, set_currentUsage (currentUsage p + 1) p)).
Proof.
  assert (Hrej : forall q, (startDate q < now)%Z ->
                           schema_validate now q = false).
  { intros q Hlt. unfold schema_validate, validate_startDate.
    replace (now <=? startDate q)%Z with false
      by (symmetry; apply Z.leb_gt; exact Hlt).
    rewrite !andb_false_r. reflexivity. }
  split; [|split].
  - unfold validate_startDate. intros Hs Hv.
    apply Z.leb_le in Hs. apply isValid_true_inv in Hv. lia.
  - intros Hlt. unfold save. rewrite (Hrej p Hlt). reflexivity.
  - intros Hlt Hu. unfold incrementUsage, save. rewrite Hu.
    rewrite (Hrej (set_currentUsage (currentUsage p + 1) p) Hlt).
    reflexivity.
Qed.

Lemma started_promotion_fails_validation_witness :
  (startDate one_left < 1000)%Z
  /\ usage_reached one_left = false
  /\ isValid 1000 one_left = true
  /\ incrementUsage schema_validate 1000 one_left
     = (Err ValidationError, set_currentUsage (2 + 1) one_left).
Proof.
  assert (H : (startDate one_left < 1000)%Z) by reflexivity.
  split; [exact H|]. split; [reflexivity|]. split; [reflexivity|].
  apply (proj2 (proj2 (started_promotion_fails_validation 1000 one_left))
           H eq_refl).
Defined.

End PromotionExtras.

(** ** Further properties of the order hook *)

Section OrderExtras.

Import Order.

Lemma all_products_found_dec (db : Database) (l : list Item) :
  {all_products_found db l} + {~ all_products_found db l}.
Proof.
  apply Forall_dec. intros item.
  destruct (products db !! product item) as [prod|].
  - left. eexists; reflexivity.
  - right. intros [prod H]. discriminate.
Qed.

(** The hook succeeds only when every product is found. *)
Lemma pre_save_ok_found (db : Database) (o o' : t) :
  pre_save db o = Ok o' -> all_products_found db (items o).
Proof.
  intros Hok. destruct (all_products_found_dec db (items o)) as [H|H];
    [exact H|].
  destruct (pre_save_missing db o H) as (item & _ & _ & Herr). congruence.
Qed.

Lemma pre_save_ok_total (db : Database) (o o' : t) :
  pre_save db o = Ok o' ->
  totalPrice o' == lines_total (fun id => products db !! id) (items o)
                   + taxPrice o + shippingPrice o
  /\ items o' = items o /\ taxPrice o' = taxPrice o
  /\ shippingPrice o' = shippingPrice o.
Proof.
  intros Hok.
  destruct (pre_save_found db o (pre_save_ok_found db o o' Hok))
    as (total & Hsave & Heq).
  rewrite Hsave in Hok. injection Hok as <-. cbn. tauto.
Qed.

(** X8.  The hook derives [totalPrice] afresh: the [totalPrice] the document
    comes with has no influence on the result, and running the hook again on
    its own result gives that result back. *)
Theorem pre_save_recomputes_total (db : Database) (o : t) :
  (forall x, pre_save db (set_totalPrice x o) = pre_save db o)
  /\ (forall o', pre_save db o = Ok o' -> pre_save db o' = Ok o').
Proof.
  split.
  - intros x. unfold pre_save. cbn [items set_totalPrice].
    destruct (Promise_all _); reflexivity.
  - intros o'. unfold pre_save.
    destruct (Promise_all (map (item_total db) (items o))) as [prices|e] eqn:E;
      [|discriminate].
    intros [= <-]. cbn [items set_totalPrice]. rewrite E. reflexivity.
Qed.

Lemma pre_save_recomputes_total_witness :
  exists o', pre_save plain_shop order_A = Ok o'
             /\ pre_save plain_shop o' = Ok o'.
Proof.
  eexists. split; [reflexivity|].
  apply (proj2 (pre_save_recomputes_total plain_shop order_A)). reflexivity.
Defined.

Lemma lines_total_nonneg (db : Database) (l : list Item) :
  Forall (fun item => validate_quantity item = true) l ->
  Forall (fun item => forall x, price item = Some x -> 0 <= x) l ->
  (forall id prod, products db !! id = Some prod -> 0 <= Product.price prod) ->
  0 <= lines_total (fun id => products db !! id) l.
Proof.
  intros Hq Hp Hprod. induction l as [|item rest IH]; cbn [lines_total].
  - apply Qle_refl.
  - inversion Hq as [|? ? Hq1 Hq2]. inversion Hp as [|? ? Hp1 Hp2]. subst.
    specialize (IH Hq2 Hp2).
    apply Qle_bool_iff in Hq1.
    assert (Hunit : 0 <= match price item with
                         | Some x => x
                         | None => from_option Product.price 0
                                     (products db !! product item)
                         end).
    { destruct (price item) as [x|]; [apply Hp1; reflexivity|].
      destruct (products db !! product item) as [prod|] eqn:E; cbn.
      - apply (Hprod _ _ E).
      - apply Qle_refl. }
    nra.
Qed.

(** X10.  An order whose every line has a quantity of at least 1 (the
    schema's minimum), whose explicit prices, tax and shipping are not
    negative, in a shop whose product prices are not negative, never gets a
    total below its tax plus shipping. *)
Theorem pre_save_total_nonneg (db : Database) (o o' : t) :
  forallb validate_quantity (items o) = true ->
  Forall (fun item => forall x, price item = Some x -> 0 <= x) (items o) ->
  (forall id prod, products db !! id = Some prod -> 0 <= Product.price prod) ->
  0 <= taxPrice o ->
  0 <= shippingPrice o ->
  pre_save db o = Ok o' ->
  taxPrice o + shippingPrice o <= totalPrice o' /\ 0 <= totalPrice o'.
Proof.
  intros Hq Hp Hprod Htax Hship Hok.
  assert (HqF : Forall (fun item => validate_quantity item = true) (items o)).
  { apply List.Forall_forall.
    exact (proj1 (List.forallb_forall validate_quantity (items o)) Hq). }
  pose proof (lines_total_nonneg db (items o) HqF Hp Hprod) as Hlines.
  destruct (pre_save_ok_total db o o' Hok) as (-> & _).
  split; lra.
Qed.

Lemma plain_shop_prices (id : ObjectId) (prod : Product.t) :
  products plain_shop !! id = Some prod -> 0 <= Product.price prod.
Proof.
  cbn [products plain_shop]. intros H.
  apply lookup_singleton_Some in H. destruct H as [_ <-]. discriminate.
Qed.

Lemma pre_save_total_nonneg_witness :
  forallb validate_quantity (items order_two_lines) = true
  /\ 0 <= taxPrice order_two_lines /\ 0 <= shippingPrice order_two_lines
  /\ exists o', pre_save plain_shop order_two_lines = Ok o'
                /\ 0 <= totalPrice o'.
Proof.
  assert (Htax : 0 <= taxPrice order_two_lines) by discriminate.
  assert (Hship : 0 <= shippingPrice order_two_lines) by discriminate.
  assert (Hp : Forall (fun item => forall x, price item = Some x -> 0 <= x)
                      (items order_two_lines)).
  { repeat constructor.
    - intros x [= <-]. discriminate.
    - intros x H. discriminate H. }
  split; [reflexivity|]. split; [exact Htax|]. split; [exact Hship|].
  eexists. split; [reflexivity|].
  apply (pre_save_total_nonneg plain_shop order_two_lines _ eq_refl Hp
           plain_shop_prices Htax Hship eq_refl).
Defined.

End OrderExtras.

(** ** The creation of an order through the controller *)

Section OrderControllerExtras.

Import OrderController.

Lemma joi_hex24_required (v : option string) :
  joi_hex24 true v = None <-> exists s, v = Some s /\ hex24 s.
Proof.
  unfold joi_hex24, hex24. destruct v as [s|].
  - destruct (String.eqb_spec s "") as [->|Hne].
    + split; [discriminate|]. intros (s & [= <-] & Hlen & _). discriminate.
    + destruct (all_hex s) eqn:Ehex; cbn [negb].
      * destruct (Nat.eqb_spec (String.length s) 24) as [Hlen|Hlen];
          cbn [negb].
        -- split; [intros _; exists s; auto | reflexivity].
        -- split; [discriminate|]. intros (s' & [= <-] & Hlen' & _).
           contradiction.
      * split; [discriminate|]. intros (s' & [= <-] & _ & H). congruence.
  - split; [discriminate|]. intros (s & H & _). discriminate.
Qed.

Lemma joi_hex24_optional (v : option string) :
  joi_hex24 false v = None <-> forall s, v = Some s -> hex24 s.
Proof.
  destruct v as [s|].
  - change (joi_hex24 false (Some s)) with (joi_hex24 true (Some s)).
    rewrite joi_hex24_required. split.
    + intros (s' & [= <-] & H) s'' [= <-]. exact H.
    + intros H. exists s. split; [reflexivity | apply H; reflexivity].
  - split; [intros _ s H; discriminate | reflexivity].
Qed.

Lemma joi_unsafe_false (x : Number) :
  joi_unsafe x = false <->
  - MAX_SAFE_INTEGER <= x /\ x <= MAX_SAFE_INTEGER.
Proof.
  unfold joi_unsafe. rewrite orb_false_iff, !Qlt_bool_false_iff. tauto.
Qed.

Lemma joi_quantity_accepts (v : option Number) :
  joi_quantity v = None <->
  exists q, v = Some q /\ is_integer q = true
            /\ 1 <= q /\ q <= MAX_SAFE_INTEGER.
Proof.
  unfold joi_quantity. destruct v as [q|].
  - destruct (joi_unsafe q) eqn:Eu.
    + split; [discriminate|]. intros (q' & [= <-] & _ & H1 & Hmax).
      assert (Hsafe : joi_unsafe q = false).
      { apply joi_unsafe_false. split; [|exact Hmax].
        unfold MAX_SAFE_INTEGER. lra. }
      congruence.
    + apply joi_unsafe_false in Eu. destruct Eu as [_ Hmax].
      destruct (is_integer q) eqn:Eint; cbn [negb].
      * destruct (Qlt_bool q 1) eqn:E.
        -- split; [discriminate|]. intros (q' & [= <-] & _ & H & _).
           apply Qlt_bool_iff in E. apply Qlt_not_le in E. contradiction.
        -- apply Qlt_bool_false_iff in E.
           split; [intros _; exists q; auto | reflexivity].
      * split; [discriminate|]. intros (q' & [= <-] & H & _). congruence.
  - split; [discriminate|]. intros (q & H & _). discriminate.
Qed.

Lemma joi_price_accepts (v : option Number) :
  joi_price v = None <->
  exists x, v = Some x /\ 0 <= x /\ x <= MAX_SAFE_INTEGER.
Proof.
  unfold joi_price. destruct v as [x|].
  - destruct (joi_unsafe x) eqn:Eu.
    + split; [discriminate|]. intros (x' & [= <-] & H0 & Hmax).
      assert (Hsafe : joi_unsafe x = false).
      { apply joi_unsafe_false. split; [|exact Hmax].
        unfold MAX_SAFE_INTEGER. lra. }
      congruence.
    + apply joi_unsafe_false in Eu. destruct Eu as [_ Hmax].
      destruct (Qlt_bool x 0) eqn:E.
      * split; [discriminate|]. intros (x' & [= <-] & H & _).
        apply Qlt_bool_iff in E. apply Qlt_not_le in E. contradiction.
      * apply Qlt_bool_false_iff in E.
        split; [intros _; exists x; auto | reflexivity].
  - split; [discriminate|]. intros (x & H & _). discriminate.
Qed.

Lemma joi_paymentMethod_accepts (v : option string) :
  joi_paymentMethod v = None <->
  exists m, v = Some m /\ m ∈ ["card"; "paypal"; "bank_transfer"].
Proof.
  unfold joi_paymentMethod. destruct v as [m|].
  - destruct (bool_decide_reflect (m ∈ ["card"; "paypal"; "bank_transfer"]))
      as [H|H].
    + split; [intros _; exists m; auto | reflexivity].
    + split; [discriminate|]. intros (m' & [= <-] & H'). contradiction.
  - split; [discriminate|]. intros (m & H & _). discriminate.
Qed.

Lemma orderItemSchema_accepts (i : nat) (it : ItemBody) :
  orderItemSchema i it = None <-> valid_item_body it.
Proof.
  unfold orderItemSchema, valid_item_body. cbn [first_error].
  rewrite <- joi_hex24_required, <- joi_hex24_optional,
    <- joi_quantity_accepts, <- joi_price_accepts.
  destruct (joi_hex24 true (product it));
    [split; [discriminate | intros (H & _); discriminate]|].
  destruct (joi_hex24 false (variant it));
    [split; [discriminate | intros (_ & H & _); discriminate]|].
  destruct (joi_quantity (quantity it));
    [split; [discriminate | intros (_ & _ & H & _); discriminate]|].
  destruct (joi_price (price it));
    [split; [discriminate | intros (_ & _ & _ & H); discriminate]|].
  split; [intros _; repeat split | reflexivity].
Qed.

Lemma joi_items_from_accepts (l : list ItemBody) (i : nat) :
  joi_items_from i l = None <-> Forall valid_item_body l.
Proof.
  revert i. induction l as [|it rest IH]; intros i; cbn [joi_items_from].
  - split; [constructor | reflexivity].
  - pose proof (orderItemSchema_accepts i it) as Hit.
    destruct (orderItemSchema i it).
    + split; [discriminate|]. intros H. inversion H; subst.
      apply Hit. assumption.
    + rewrite IH. split.
      * intros H. constructor; [apply Hit; reflexivity | exact H].
      * intros H. inversion H; assumption.
Qed.

Lemma joi_items_accepts (v : option (list ItemBody)) :
  joi_items v = None <->
  exists l, v = Some l /\ l <> [] /\ Forall valid_item_body l.
Proof.
  unfold joi_items. destruct v as [l|].
  - pose proof (joi_items_from_accepts l 0) as Hl.
    destruct (joi_items_from 0 l).
    + split; [discriminate|]. intros (l' & [= <-] & _ & H).
      apply Hl in H. discriminate.
    + destruct l as [|it rest]; cbn.
      * split; [discriminate|]. intros (l' & [= <-] & H & _).
        contradiction.
      * split; [|reflexivity]. intros _. eexists. split; [reflexivity|].
        split; [discriminate | apply Hl; reflexivity].
  - split; [discriminate|]. intros (l & H & _). discriminate.
Qed.

(** [createSchema] spelled out. *)
Lemma createSchema_accepts_iff_helper (b : Body) :
  createSchema_validate b = None <-> valid_body b.
Proof.
  unfold createSchema_validate, valid_body. cbn [first_error].
  rewrite <- !joi_hex24_required, <- joi_items_accepts,
    <- joi_paymentMethod_accepts.
  destruct (joi_hex24 true (user b));
    [split; [discriminate | intros (H & _); discriminate]|].
  destruct (joi_items (items b));
    [split; [discriminate | intros (_ & H & _); discriminate]|].
  destruct (joi_hex24 true (shippingAddress b));
    [split; [discriminate | intros (_ & _ & H & _); discriminate]|].
  destruct (joi_paymentMethod (paymentMethod b));
    [split; [discriminate | intros (_ & _ & _ & H & _); discriminate]|].
  destruct (unknown b);
    [split; [intros _; repeat split | reflexivity]
    | split; [discriminate | intros (_ & _ & _ & _ & H); discriminate]].
Qed.



Lemma cast_item_valid (it : ItemBody) :
  valid_item_body it ->
  exists item, cast_item it = Some item /\ created_item item.
Proof.
  intros ((s & Hs & _) & _ & (q & Hq & _ & Hq1 & _) & (x & Hx & Hx0 & _)).
  unfold cast_item. rewrite Hs, Hq. eexists. split; [reflexivity|].
  split; [exact Hq1|]. exists x. split; [exact Hx | exact Hx0].
Qed.

Lemma cast_items_valid (l : list ItemBody) :
  Forall valid_item_body l ->
  exists its, mapM cast_item l = Some its
              /\ Forall created_item its /\ length its = length l.
Proof.
  induction 1 as [|it rest Hit _ IH].
  - exists []. repeat split; constructor.
  - destruct (cast_item_valid it Hit) as (item & Hitem & Hc).
    destruct IH as (its & Hits & HF & Hlen).
    exists (item :: its). cbn. rewrite Hitem. cbn. rewrite Hits. cbn.
    split; [reflexivity|]. split; [constructor; assumption|].
    rewrite Hlen. reflexivity.
Qed.

Lemma cast_body_valid (b : Body) :
  valid_body b ->
  exists u its a m,
    cast_body b = Some (Order.mkInput u its a m None None None)
    /\ its <> [] /\ Forall created_item its
    /\ m ∈ ["card"; "paypal"; "bank_transfer"].
Proof.
  intros ((u & Hu & _) & (l & Hl & Hne & HF) & (a & Ha & _) & (m & Hm & Hin)
          & _).
  destruct (cast_items_valid l HF) as (its & Hits & Hc & Hlen).
  exists (cast_ObjectId u), its, (cast_ObjectId a), m.
  unfold cast_body. rewrite Hu, Hl, Ha, Hm, Hits.
  split; [reflexivity|]. split; [|split; assumption].
  intros ->. destruct l; [contradiction | discriminate].
Qed.

Lemma created_items_validate (its : list Order.Item) :
  Forall created_item its ->
  forallb (fun item => Order.validate_quantity item
                       && Order.validate_price item) its = true.
Proof.
  induction 1 as [|item rest (Hq & x & Hx & _) _ IH]; [reflexivity|].
  cbn [forallb]. rewrite IH.
  unfold Order.validate_quantity, Order.validate_price.
  apply Qle_bool_iff in Hq. rewrite Hq, Hx. reflexivity.
Qed.

Lemma created_items_total (lookup : ObjectId -> option Product.t)
    (its : list Order.Item) :
  Forall created_item its ->
  lines_total lookup its = lines_total (fun _ => None) its
  /\ 0 <= lines_total lookup its.
Proof.
  induction 1 as [|item rest (Hq & x & Hx & Hx0) _ [IH1 IH2]];
    cbn [lines_total].
  - split; [reflexivity | apply Qle_refl].
  - rewrite Hx, IH1. split; [reflexivity|]. rewrite <- IH1. nra.
Qed.

(** The answer to a request that [createSchema] accepts. *)
Lemma create_of_valid_body (db : Database) (b : Body) :
  valid_body b ->
  exists input,
    cast_body b = Some input
    /\ (all_products_found db (Order.i_items input) ->
        exists total,
          create db b = Json 201 (Order.set_totalPrice total (Order.new input))
          /\ Order.taxPrice (Order.new input) = 0
          /\ Order.shippingPrice (Order.new input) = 0
          /\ total == lines_total (fun _ => None) (Order.i_items input)
          /\ 0 <= total)
    /\ (~ all_products_found db (Order.i_items input) ->
        create db b
        = Next (mkErrorResponse (Text "Error creating order") 500)).
Proof.
  intros Hvalid.
  pose proof (proj2 (createSchema_accepts_iff_helper b) Hvalid) as Hjoi.
  destruct (cast_body_valid b Hvalid) as (u & its & a & m & Hcast & Hne & Hc
                                          & Hin).
  exists (Order.mkInput u its a m None None None).
  split; [exact Hcast|].
  assert (Hschema : Order.schema_validate
                      (Order.new (Order.mkInput u its a m None None None))
                    = true).
  { unfold Order.schema_validate, Order.validate_paymentMethod.
    cbn [Order.items Order.new Order.i_items Order.paymentMethod
         Order.i_paymentMethod].
    rewrite (created_items_validate its Hc). cbn [andb].
    apply bool_decide_eq_true_2. exact Hin. }
  unfold create. rewrite Hjoi, Hcast.
  unfold Order.create, Order.save. rewrite Hschema.
  cbn [Order.i_items]. split.
  - intros Hall.
    destruct (pre_save_found db
                (Order.new (Order.mkInput u its a m None None None)) Hall)
      as (total & -> & Heq).
    exists total. split; [reflexivity|]. split; [reflexivity|].
    split; [reflexivity|].
    cbn [Order.items Order.new Order.i_items Order.taxPrice
         Order.shippingPrice Order.i_taxPrice Order.i_shippingPrice
         default] in Heq.
    destruct (created_items_total (fun id => products db !! id) its Hc)
      as [E Hpos].
    rewrite <- E. split; [rewrite Heq; ring | rewrite Heq; lra].
  - intros Hnot.
    destruct (pre_save_missing db
                (Order.new (Order.mkInput u its a m None None None)) Hnot)
      as (item & _ & _ & ->).
    reflexivity.
Qed.




(** X13.  Every order the controller creates is answered with 201 and
    comes from a request [createSchema] accepts: it has at least one line,
    every line has a quantity of at least 1 and an explicit price of at
    least 0, its tax and shipping are 0, it is unpaid, undelivered and
    pending, and its total is the sum of quantity times explicit price over
    its lines, which is not negative. *)
Theorem create_postcondition (db : Database) (b : Body) (st : Z)
    (order : Order.t) :
  create db b = Json st order ->
  st = 201%Z
  /\ valid_body b
  /\ Order.items order <> []
  /\ Forall created_item (Order.items order)
  /\ Order.taxPrice order = 0 /\ Order.shippingPrice order = 0
  /\ Order.isPaid order = false /\ Order.isDelivered order = false
  /\ Order.status order = "pending"
  /\ Order.totalPrice order
     == lines_total (fun _ => None) (Order.items order)
  /\ 0 <= Order.totalPrice order.
Proof.
  intros Hcreate.
  assert (Hvalid : valid_body b).
  { apply createSchema_accepts_iff_helper. unfold create in Hcreate.
    destruct (createSchema_validate b); [discriminate | reflexivity]. }
  destruct (cast_body_valid b Hvalid) as (u & its & a & m & Hcast & Hne & Hc
                                          & _).
  destruct (create_of_valid_body db b Hvalid) as (input & Hcast' & Hok & Hko).
  rewrite Hcast in Hcast'. injection Hcast' as <-. cbn [Order.i_items] in *.
  destruct (all_products_found_dec db its) as [Hall|Hall].
  - destruct (Hok Hall) as (total & Hc201 & _ & _ & Heq & Hpos).
    rewrite Hc201 in Hcreate. injection Hcreate as <- <-.
    cbn [Order.items Order.taxPrice Order.shippingPrice Order.isPaid
         Order.isDelivered Order.status Order.totalPrice
         Order.set_totalPrice Order.new Order.i_items Order.i_taxPrice
         Order.i_shippingPrice default].
    split; [reflexivity|]. split; [exact Hvalid|]. split; [exact Hne|].
    split; [exact Hc|]. do 5 (split; [reflexivity|]).
    split; [exact Heq | exact Hpos].
  - rewrite (Hko Hall) in Hcreate. discriminate.
Qed.

Lemma create_postcondition_witness :
  exists order, create shop body_B = Json 201 order
                /\ Order.taxPrice order = 0
                /\ Forall created_item (Order.items order).
Proof.
  eexists. split; [reflexivity|].
  destruct (create_postcondition shop body_B 201 _ eq_refl)
    as (_ & _ & _ & Hitems & Htax & _).
  split; [exact Htax | exact Hitems].
Defined.




End OrderControllerExtras.

(** ** Error responses *)

Section ErrorExtras.

Lemma status_table :
  forallb (fun n => String.eqb (ErrorResponseClass.status (Z.of_nat n))
                      (if leading_four (Z.of_nat n) then "fail" else "error"))
          (seq 0 (Z.to_nat 10000)) = true.
Proof. vm_compute. reflexivity. Qed.

(** X15.  The [status] of an [ErrorResponse] follows the first decimal
    digit of the status code, not its range: for every code from 0 to 9999
    it is ['fail'] when the code is 4, 40 to 49, 400 to 499 or 4000 to 4999
    and ['error'] otherwise; so every 4xx code gives ['fail'] and every 5xx
    code gives ['error']. *)
Theorem status_by_leading_digit (c : Z) :
  (0 <= c < 10000)%Z ->
  ErrorResponseClass.status c = (if leading_four c then "fail" else "error")
  /\ ((400 <= c <= 499)%Z -> ErrorResponseClass.status c = "fail")
  /\ ((500 <= c <= 599)%Z -> ErrorResponseClass.status c = "error").
Proof.
  intros Hc.
  assert (H : ErrorResponseClass.status c
              = (if leading_four c then "fail" else "error")).
  { pose proof (proj1 (List.forallb_forall _ _) status_table (Z.to_nat c))
      as Htab.
    cbv beta in Htab. rewrite Z2Nat.id in Htab by lia.
    apply String.eqb_eq. apply Htab. apply in_seq. lia. }
  split; [exact H|]. split; intros Hr; rewrite H; unfold leading_four.
  - replace (400 <=? c)%Z with true by (symmetry; apply Z.leb_le; lia).
    replace (c <=? 499)%Z with true by (symmetry; apply Z.leb_le; lia).
    cbn [andb]. rewrite orb_true_r. reflexivity.
  - replace (c =? 4)%Z with false by (symmetry; apply Z.eqb_neq; lia).
    replace (c <=? 49)%Z with false by (symmetry; apply Z.leb_gt; lia).
    replace (c <=? 499)%Z with false by (symmetry; apply Z.leb_gt; lia).
    replace (4000 <=? c)%Z with false by (symmetry; apply Z.leb_gt; lia).
    rewrite !andb_false_r. reflexivity.
Qed.

Lemma status_by_leading_digit_witness :
  (0 <= 404 < 10000)%Z /\ ErrorResponseClass.status 404 = "fail".
Proof.
  assert (H : (0 <= 404 < 10000)%Z) by lia.
  split; [exact H|].
  apply (proj1 (proj2 (status_by_leading_digit 404 H))). lia.
Defined.

Import ErrorHandler.

(** X16.  The middleware never lets the message of an error through on a
    response of 500 or more: whatever the error, such a response carries
    the fixed message; an error without a status code, or with 0, is
    answered with 500 unless its class, [code] or [name] says otherwise;
    and the stack is part of the response in development only. *)
Theorem handleError_hides_server_errors (development : bool) (err : Error) :
  ((500 <= status (handleError development err))%Z ->
   body_message (handleError development err) = generic_message)
  /\ (class err = PlainError -> code err <> Some 11000%Z ->
      name err <> "UnauthorizedError" ->
      statusCode err = None \/ statusCode err = Some 0%Z ->
      status (handleError development err) = 500%Z)
  /\ (development = false -> details (handleError development err) = None).
Proof.
  unfold handleError. split; [|split].
  - destruct (class err); cbn [status body_message]; [lia | lia |].
    destruct (bool_decide (code err = Some 11000%Z));
      cbn [status body_message]; [lia|].
    destruct (String.eqb (name err) "UnauthorizedError");
      cbn [status body_message]; [lia|].
    intros H. apply Z.leb_le in H. rewrite H. reflexivity.
  - intros -> Hcode Hname Hstatus.
    rewrite (bool_decide_eq_false_2 _ Hcode).
    apply String.eqb_neq in Hname. rewrite Hname. cbn [status].
    destruct Hstatus as [-> | ->]; reflexivity.
  - intros ->. destruct (class err); cbn [details]; [reflexivity..|].
    destruct (bool_decide _); [reflexivity|].
    destruct (String.eqb _ _); reflexivity.
Qed.

Lemma handleError_hides_server_errors_witness :
  (500 <= status (handleError false
                    (operational_error "Error creating order" 500)))%Z
  /\ body_message (handleError false
                     (operational_error "Error creating order" 500))
     = generic_message.
Proof.
  assert (H : (500 <= status (handleError false
                    (operational_error "Error creating order" 500)))%Z)
    by (vm_compute; discriminate).
  split; [exact H|].
  apply (proj1 (handleError_hides_server_errors false
                  (operational_error "Error creating order" 500)) H).
Defined.

(** X17.  An [ErrorResponse] of a controller with a non-empty message and
    a status code below 500 other than 0 reaches the client unchanged: the
    response has that status and that message. *)
Theorem handleError_passes_client_errors
    (development : bool) (message : string) (statusCode : Z) :
  message <> "" ->
  statusCode <> 0%Z ->
  (statusCode < 500)%Z ->
  status (handleError development (operational_error message statusCode))
  = statusCode
  /\ body_message
       (handleError development (operational_error message statusCode))
     = message.
Proof.
  intros Hmsg Hnz Hlt. unfold handleError, operational_error.
  cbn [class ErrorHandler.statusCode ErrorHandler.message code name].
  apply String.eqb_neq in Hmsg. rewrite Hmsg.
  apply Z.eqb_neq in Hnz. rewrite Hnz.
  rewrite bool_decide_eq_false_2 by discriminate.
  cbn [String.eqb Ascii.eqb Bool.eqb].
  cbn [status body_message].
  apply Z.leb_gt in Hlt. rewrite Hlt. split; reflexivity.
Qed.

Lemma handleError_passes_client_errors_witness :
  "Order not found" <> "" /\ 404%Z <> 0%Z /\ (404 < 500)%Z
  /\ status (handleError false (operational_error "Order not found" 404))
     = 404%Z.
Proof.
  assert (H1 : "Order not found" <> "") by discriminate.
  assert (H2 : 404%Z <> 0%Z) by discriminate.
  assert (H3 : (404 < 500)%Z) by reflexivity.
  split; [exact H1|]. split; [exact H2|]. split; [exact H3|].
  apply (proj1 (handleError_passes_client_errors false "Order not found" 404
                  H1 H2 H3)).
Defined.

End ErrorExtras.

(** ** The creation of a promotion through the controller *)

Section PromotionControllerExtras.

Import PromotionController.

Variable trim : string -> string.

Lemma cast_type_valid (s : string) :
  s ∈ ["percentage"; "fixed"] ->
  (s = "percentage" /\ cast_type s = Some Promotion.percentage)
  \/ (s = "fixed" /\ cast_type s = Some Promotion.fixed).
Proof.
  intros H. apply list_elem_of_In in H.
  destruct H as [<- | [<- | []]]; [left | right]; split; reflexivity.
Qed.

Lemma joi_value_accepts (ty : option string) (v : option Number) :
  joi_value ty v = None ->
  exists x, v = Some x /\ (1 # 100) <= x
            /\ (ty = Some "percentage" -> x <= 100).
Proof.
  unfold joi_value. destruct v as [x|]; [|discriminate].
  destruct (OrderController.joi_unsafe x); [discriminate|].
  destruct (bool_decide_reflect (ty = Some "percentage")) as [E|E].
  - destruct (Qlt_bool x (1 # 100)) eqn:E1; [discriminate|].
    destruct (Qlt_bool 100 x) eqn:E2; [discriminate|]. intros _.
    exists x. split; [reflexivity|].
    split; [apply Qlt_bool_false_iff, E1|].
    intros _. apply Qlt_bool_false_iff, E2.
  - destruct (Qlt_bool x (1 # 100)) eqn:E1; [discriminate|]. intros _.
    exists x. split; [reflexivity|].
    split; [apply Qlt_bool_false_iff, E1 | intros H; contradiction].
Qed.

Lemma joi_minPurchase_accepts (v : option Number) :
  joi_minPurchase v = None -> forall x, v = Some x -> 0 <= x.
Proof.
  unfold joi_minPurchase. intros H x ->.
  destruct (OrderController.joi_unsafe x); [discriminate|].
  destruct (Qlt_bool x 0) eqn:E0; [discriminate|].
  apply Qlt_bool_false_iff, E0.
Qed.

Lemma joi_maxUsage_accepts (v : option Number) :
  joi_maxUsage v = None -> forall m, v = Some m -> 1 <= m.
Proof.
  unfold joi_maxUsage. intros H m ->.
  destruct (OrderController.joi_unsafe m); [discriminate|].
  destruct (negb (OrderController.is_integer m)); [discriminate|].
  destruct (Qlt_bool m 1) eqn:E1; [discriminate|].
  apply Qlt_bool_false_iff, E1.
Qed.

(** What [createSchema] has checked of a request it accepts. *)
Lemma createSchema_accepted (now : Date) (b : Body) :
  createSchema_validate trim now b = None ->
  exists n ty ty' v pid d e,
    name b = Some n /\ String.eqb (trim n) "" = false
    /\ type b = Some ty /\ cast_type ty = Some ty'
    /\ value b = Some v /\ (1 # 100) <= v
    /\ (ty' = Promotion.percentage -> v <= 100)
    /\ productId b = Some pid
    /\ startDate b = Some d /\ (now <= d)%Z
    /\ endDate b = Some e /\ (d < e)%Z
    /\ (forall x, minPurchase b = Some x -> 0 <= x)
    /\ (forall m, maxUsage b = Some m -> 1 <= m).
Proof.
  unfold createSchema_validate. cbn [first_reason].
  destruct (joi_string trim true (name b)) eqn:Hname; [discriminate|].
  destruct (joi_string trim false (description b)); [discriminate|].
  destruct (joi_type (type b)) eqn:Htype; [discriminate|].
  destruct (joi_value (type b) (value b)) eqn:Hvalue; [discriminate|].
  destruct (joi_productId (productId b)) eqn:Hpid; [discriminate|].
  destruct (joi_startDate now (startDate b)) eqn:Hstart; [discriminate|].
  destruct (joi_endDate (startDate b) (endDate b)) eqn:Hend; [discriminate|].
  destruct (joi_minPurchase (minPurchase b)) eqn:Hmp; [discriminate|].
  destruct (joi_maxUsage (maxUsage b)) eqn:Hmu; [discriminate|].
  intros _.
  unfold joi_string in Hname.
  destruct (name b) as [n|]; [|discriminate].
  destruct (String.eqb (trim n) "") eqn:En; [discriminate|].
  unfold joi_type in Htype.
  destruct (type b) as [ty|]; [|discriminate].
  destruct (bool_decide_reflect (ty ∈ ["percentage"; "fixed"])) as [Hty|Hty];
    [|discriminate].
  destruct (joi_value_accepts _ _ Hvalue) as (v & Ev & Hmin & Hmax).
  unfold joi_productId in Hpid.
  destruct (productId b) as [pid|];
    [|cbn in Hpid; discriminate].
  unfold joi_startDate in Hstart.
  destruct (startDate b) as [d|]; [|discriminate].
  destruct (d <? now)%Z eqn:Ed; [discriminate|]. apply Z.ltb_ge in Ed.
  unfold joi_endDate in Hend.
  destruct (endDate b) as [e|]; [|discriminate].
  destruct (e <=? d)%Z eqn:Ee; [discriminate|]. apply Z.leb_gt in Ee.
  pose proof (joi_minPurchase_accepts _ Hmp) as Hmp'.
  pose proof (joi_maxUsage_accepts _ Hmu) as Hmu'.
  destruct (cast_type_valid ty Hty) as [[Ety Hcast] | [Ety Hcast]].
  - exists n, ty, Promotion.percentage, v, pid, d, e.
    repeat (split; [solve [reflexivity | assumption
                          | intros _; apply Hmax; rewrite Ety; reflexivity]|]).
    exact Hmu'.
  - exists n, ty, Promotion.fixed, v, pid, d, e.
    repeat (split; [solve [reflexivity | assumption
                          | intros E; discriminate E]|]).
    exact Hmu'.
Qed.

(** The document of a request [createSchema] accepts. *)
Lemma new_of_accepted (now : Date) (b : Body) :
  createSchema_validate trim now b = None ->
  exists doc,
    new trim b = Some doc
    /\ Promotion.validate_value_percentage doc = true
    /\ Promotion.validate_value_fixed doc = true
    /\ Promotion.validate_endDate doc = true
    /\ Promotion.validate_minPurchase doc = true
    /\ Promotion.validate_maxUsage doc = true
    /\ (now <= Promotion.startDate doc)%Z
    /\ Promotion.active doc = true
    /\ Promotion.currentUsage doc = 0
    /\ Promotion.usage_reached doc = false.
Proof.
  intros Hacc.
  destruct (createSchema_accepted now b Hacc)
    as (n & ty & ty' & v & pid & d & e & Hn & Htrim & Hty & Hcast & Hv & Hmin
        & Hmax & Hpid & Hd & Hnow & He & Hde & Hmp & Hmu).
  eexists. unfold new. rewrite Hn, Hty, Hv, Hpid, Hd, He, Hcast, Htrim.
  split; [reflexivity|].
  assert (Hpos : 0 < v) by lra.
  split.
  { unfold Promotion.validate_value_percentage. cbn [Promotion.type
      Promotion.value]. destruct ty'; [|reflexivity].
    apply andb_true_iff. split; [apply Qlt_bool_iff; exact Hpos|].
    apply Qle_bool_iff. apply Hmax. reflexivity. }
  split.
  { unfold Promotion.validate_value_fixed. cbn [Promotion.type
      Promotion.value]. destruct ty'; [reflexivity|].
    apply Qlt_bool_iff; exact Hpos. }
  split.
  { unfold Promotion.validate_endDate. cbn. apply Z.ltb_lt. exact Hde. }
  split.
  { unfold Promotion.validate_minPurchase. cbn [Promotion.minPurchase].
    apply Qle_bool_iff. destruct (minPurchase b) as [x|]; cbn [default].
    - apply Hmp. reflexivity.
    - apply Qle_refl. }
  split.
  { unfold Promotion.validate_maxUsage. cbn [Promotion.maxUsage].
    destruct (maxUsage b) as [m|]; [|reflexivity].
    apply Qle_bool_iff. apply Hmu. reflexivity. }
  split; [exact Hnow|]. split; [reflexivity|]. split; [reflexivity|].
  unfold Promotion.usage_reached.
  cbn [Promotion.maxUsage Promotion.currentUsage].
  destruct (maxUsage b) as [m|]; [|reflexivity].
  specialize (Hmu m eq_refl). rewrite (truthy_of_min_1 m Hmu). cbn [andb].
  unfold Qge_bool. destruct (Qle_bool m 0) eqn:E; [|reflexivity].
  apply Qle_bool_iff in E. lra.
Qed.

(** What [create] writes for a request [createSchema] accepts, and how it
    ends. *)
Lemma create_of_accepted (now1 now2 : Date) (b : Body) :
  createSchema_validate trim now1 b = None ->
  exists doc,
    new trim b = Some doc
    /\ ((now2 <= Promotion.startDate doc)%Z ->
        create trim now1 now2 b = (Some doc, Rejects))
    /\ ((Promotion.startDate doc < now2)%Z ->
        create trim now1 now2 b = (None, Rejects)).
Proof.
  intros Hacc.
  destruct (new_of_accepted now1 b Hacc)
    as (doc & Hnew & Hp & Hf & He & Hmp & Hmu & _ & _ & _ & Hreach).
  exists doc. split; [exact Hnew|].
  unfold create, model_create. rewrite Hacc, Hnew.
  unfold Promotion.save, Promotion.schema_validate,
    Promotion.validate_startDate.
  rewrite Hp, Hf, He, Hmp, Hmu. cbn [andb]. rewrite andb_true_r.
  split; intros Hstart.
  - replace (now2 <=? Promotion.startDate doc)%Z with true
      by (symmetry; apply Z.leb_le; exact Hstart).
    unfold Promotion.pre_save. rewrite Hreach. reflexivity.
  - replace (now2 <=? Promotion.startDate doc)%Z with false
      by (symmetry; apply Z.leb_gt; exact Hstart).
    reflexivity.
Qed.


(** X19.  Every request the promotion [createSchema] accepts gives a
    document that passes the schema's validators of [value], [endDate],
    [minPurchase] and [maxUsage], starts no earlier than the time Joi read,
    is active, has never been used and is not at its cap. *)
Theorem createSchema_implies_validators (now : Date) (b : Body) :
  createSchema_validate trim now b = None ->
  exists doc,
    new trim b = Some doc
    /\ Promotion.validate_value_percentage doc = true
    /\ Promotion.validate_value_fixed doc = true
    /\ Promotion.validate_endDate doc = true
    /\ Promotion.validate_minPurchase doc = true
    /\ Promotion.validate_maxUsage doc = true
    /\ (now <= Promotion.startDate doc)%Z
    /\ Promotion.active doc = true
    /\ Promotion.currentUsage doc = 0
    /\ Promotion.usage_reached doc = false.
Proof. apply new_of_accepted. Qed.


(** X21.  Every promotion the controller's [create] writes to the
    collection is active, unused, starts no earlier than the time of its
    creation, ends after it starts, and is valid exactly at the times from
    its [startDate] to its [endDate], both included. *)
Theorem created_promotion_window (now1 now2 : Date) (b : Body)
    (p : Promotion.t) :
  fst (create trim now1 now2 b) = Some p ->
  Promotion.active p = true
  /\ Promotion.currentUsage p = 0
  /\ (now2 <= Promotion.startDate p)%Z
  /\ (Promotion.startDate p < Promotion.endDate p)%Z
  /\ forall time,
       Promotion.isValid time p = true
       <-> (Promotion.startDate p <= time <= Promotion.endDate p)%Z.
Proof.
  intros Hcreate.
  assert (Hacc : createSchema_validate trim now1 b = None).
  { unfold create in Hcreate.
    destruct (createSchema_validate trim now1 b) as [[k r]|];
      [discriminate | reflexivity]. }
  destruct (new_of_accepted now1 b Hacc)
    as (doc & Hnew & _ & _ & He & _ & Hmu & _ & Hact & Hcur & Hreach).
  destruct (create_of_accepted now1 now2 b Hacc) as (doc' & Hnew' & Hok & Hko).
  rewrite Hnew in Hnew'. injection Hnew' as <-.
  destruct (Z_le_gt_dec now2 (Promotion.startDate doc)) as [Hle|Hgt].
  - rewrite (Hok Hle) in Hcreate. cbn [fst] in Hcreate.
    injection Hcreate as <-.
    split; [exact Hact|]. split; [exact Hcur|].
    split; [exact Hle|].
    split; [apply Z.ltb_lt; exact He|].
    intros time. rewrite (isValid_true_iff time doc Hmu).
    apply (usage_reached_false_iff doc Hmu) in Hreach.
    split; [intros (_ & H & _); exact H | intros H; auto].
  - rewrite Hko in Hcreate by lia. discriminate.
Qed.

End PromotionControllerExtras.

Lemma promotion_body_accepted :
  PromotionController.createSchema_validate (fun s => s) 100 promotion_body
  = None.
Proof. reflexivity. Qed.

Lemma createSchema_implies_validators_witness :
  PromotionController.createSchema_validate (fun s => s) 100 promotion_body
  = None
  /\ exists doc, PromotionController.new (fun s => s) promotion_body = Some doc
                 /\ Promotion.validate_maxUsage doc = true.
Proof.
  split; [exact promotion_body_accepted|].
  destruct (createSchema_implies_validators (fun s => s) 100 promotion_body
              promotion_body_accepted)
    as (doc & Hnew & _ & _ & _ & _ & Hmu & _).
  exists doc. split; assumption.
Defined.


Lemma created_promotion_window_witness :
  exists p,
    fst (PromotionController.create (fun s => s) 100 101 promotion_body)
    = Some p
    /\ Promotion.isValid 500 p = true.
Proof.
  eexists. split; [reflexivity|].
  destruct (created_promotion_window (fun s => s) 100 101 promotion_body
              _ eq_refl) as (_ & _ & _ & _ & Hwin).
  apply Hwin. split; [apply Z.le_refl | vm_compute; discriminate].
Defined.
